(** * solo/utils/ffcv_pretrain_dataloader.py

    A shallow embedding of the FFCV pretraining data-loader module of
    solo-learn and the properties of its own logic: index-prepending dataset
    wrappers, N-crop repetition, concatenation of crops, the fixed ImageNet
    pipelines, the dataset-name check and the forwarding of arguments to the
    external [Loader].

    Python callables may read and change the world (random number generators,
    the file system) and may raise: they are embedded in a state-and-exception
    monad [M] over an abstract [World]. *)

From Stdlib Require Import ZArith QArith Lia.
From stdpp Require Import base tactics option list gmap strings pretty.

Local Open Scope Z_scope.
Set Warnings "-register-all".

(** ** Python exceptions and outcomes *)

(** The exceptions the module itself can raise ([ValueError] in
    [prepare_transform], [AssertionError] in [prepare_n_crop_transform],
    [IndexError] from list indexing, [TypeError] from binding [**kwargs] or
    unpacking), and [OtherError] for whatever an external callable raises. *)
Inductive exn : Type :=
| ValueError (msg : string)
| TypeError (msg : string)
| IndexError (msg : string)
| AssertionError
| OtherError (name : string).

Inductive outcome (A : Type) : Type :=
| Return (a : A)
| Raise (e : exn).
Arguments Return {A} a.
Arguments Raise {A} e.

#[global] Instance outcome_ret : MRet outcome := λ A a, Return a.
#[global] Instance outcome_bind : MBind outcome := λ A B f c,
  match c with
  | Return a => f a
  | Raise e => Raise e
  end.

(** ** The monad of effectful Python code *)

Definition M (World A : Type) : Type := World → outcome A * World.

#[global] Instance M_ret {World} : MRet (M World) := λ A a w, (Return a, w).
#[global] Instance M_bind {World} : MBind (M World) := λ A B f c w,
  match c w with
  | (Return a, w1) => f a w1
  | (Raise e, w1) => (Raise e, w1)
  end.

(** A computation that returns normally from every world. *)
Definition always_returns {World A} (c : M World A) : Prop :=
  ∀ w, ∃ a w', c w = (Return a, w').

(** Python's [range(n)] for an [int] [n]: [0, 1, ..., n-1], empty when
    [n <= 0]. *)
Definition range (n : Z) : list Z := seqZ 0 n.

(** Python's builtin [sum] over a list of [int]. *)
Definition py_sum (l : list Z) : Z := fold_left Z.add l 0.

(** The list comprehension [[f(i) for i in l]]. *)
Fixpoint list_comprehension {World A B} (f : A → M World B) (l : list A)
  : M World (list B) :=
  match l with
  | [] => mret []
  | i :: l' => y ← f i; ys ← list_comprehension f l'; mret (y :: ys)
  end.

(** An object with a [__call__] method. *)
Class Callable (World C A B : Type) := call : C → A → M World B.
#[global] Hint Mode Callable - ! - - : typeclass_instances.

Section Crops.

Context {World : Type}.
(** [Image] is [PIL.Image], [Tensor] is whatever a transform returns. *)
Context {Image Tensor : Type}.

(** *** class NCropAugmentation *)

Record NCropAugmentation : Type := Build_NCropAugmentation {
  transform : Image → M World Tensor;
  num_crops : Z
}.

(** [NCropAugmentation.__call__]:
    [return [self.transform(x) for _ in range(self.num_crops)]]. *)
Definition NCropAugmentation_call (self : NCropAugmentation) (x : Image)
  : M World (list Tensor) :=
  list_comprehension (λ _ : Z, transform self x) (range (num_crops self)).

#[global] Instance NCropAugmentation_Callable
  : Callable World NCropAugmentation Image (list Tensor) :=
  NCropAugmentation_call.

(** *** class FullTransformPipeline *)

Record FullTransformPipeline (C : Type) : Type := Build_FullTransformPipeline {
  transforms : list C
}.
Arguments transforms {C} _.
Arguments Build_FullTransformPipeline {C} _.

(** The loop [for transform in self.transforms: out.extend(transform(x))],
    started with the accumulator [out]. *)
Fixpoint FullTransformPipeline_loop {C} `{!Callable World C Image (list Tensor)}
  (ts : list C) (x : Image) (out : list Tensor) : M World (list Tensor) :=
  match ts with
  | [] => mret out
  | t :: ts' => ys ← call t x; FullTransformPipeline_loop ts' x (out ++ ys)
  end.

(** [FullTransformPipeline.__call__]. *)
Definition FullTransformPipeline_call {C} `{!Callable World C Image (list Tensor)}
  (self : FullTransformPipeline C) (x : Image) : M World (list Tensor) :=
  FullTransformPipeline_loop (transforms self) x [].

#[global] Instance FullTransformPipeline_Callable {C}
  `{!Callable World C Image (list Tensor)}
  : Callable World (FullTransformPipeline C) Image (list Tensor) :=
  FullTransformPipeline_call.

(** *** prepare_n_crop_transform *)

(** The loop [for transform, num_crops in zip(...): T.append(...)], started
    with the accumulator [T]. *)
Definition prepare_n_crop_loop (pairs : list ((Image → M World Tensor) * Z))
  (T : list NCropAugmentation) : list NCropAugmentation :=
  fold_left (λ T p, T ++ [Build_NCropAugmentation p.1 p.2]) pairs T.

(** [prepare_n_crop_transform]: the assertion on the two lengths, then the
    loop over [zip(transforms, num_crops_per_aug)]. *)
Definition prepare_n_crop_transform (transforms : list (Image → M World Tensor))
  (num_crops_per_aug : list Z) : outcome (FullTransformPipeline NCropAugmentation) :=
  if bool_decide (length transforms = length num_crops_per_aug) then
    Return (Build_FullTransformPipeline
              (prepare_n_crop_loop (zip transforms num_crops_per_aug) []))
  else Raise AssertionError.

(** *** What the claims speak of *)

(** [crops t x w out w']: [out] lists, in order, the results of successive
    applications of [t] to the same [x], the first from world [w], each next
    one from the world the previous left, the last leaving [w']. *)
Inductive crops (t : Image → M World Tensor) (x : Image)
  : World → list Tensor → World → Prop :=
| crops_nil w : crops t x w [] w
| crops_cons w y w1 out w2 :
    t x w = (Return y, w1) →
    crops t x w1 out w2 →
    crops t x w (y :: out) w2.

(** [concat_outputs x l w out w']: [out] is the concatenation, in order, of
    the lists the callables of [l] return on [x], run one after the other
    from world [w] to world [w']. *)
Inductive concat_outputs {C} `{!Callable World C Image (list Tensor)} (x : Image)
  : list C → World → list Tensor → World → Prop :=
| concat_outputs_nil w : concat_outputs x [] w [] w
| concat_outputs_cons a l w ys w1 out w2 :
    call a x w = (Return ys, w1) →
    concat_outputs x l w1 out w2 →
    concat_outputs x (a :: l) w (ys ++ out) w2.

End Crops.

Arguments NCropAugmentation : clear implicits.
Arguments FullTransformPipeline : clear implicits.
Arguments transforms {C} _.
Arguments Build_FullTransformPipeline {C} _.

(** ** Datasets *)

(** Python's [l[index]] for a list and an [int] index: negative indices count
    from the end, anything outside [-len(l) <= index < len(l)] raises
    [IndexError]. *)
Definition list_getitem {A} (l : list A) (index : Z) : outcome A :=
  let i := if bool_decide (index < 0) then Z.of_nat (length l) + index else index in
  if bool_decide (0 ≤ i) then
    match l !! Z.to_nat i with
    | Some a => Return a
    | None => Raise (IndexError "list index out of range")
    end
  else Raise (IndexError "list index out of range").

(** The indices [l[index]] accepts. *)
Definition valid_index {A} (l : list A) (index : Z) : Prop :=
  - Z.of_nat (length l) ≤ index < Z.of_nat (length l).

(** Lifting of a pure outcome into the monad. *)
Definition lift {World A} (o : outcome A) : M World A := λ w, (o, w).

Section DatasetWithIndex.

Context {World : Type}.
(** [Obj]: Python objects (indices and the components of a dataset item). An
    item is the sequence of components that [*data] unpacks. *)
Context {Obj : Type}.

(** A dataset class with instances of type [Self], by its [__getitem__]. *)
Record Dataset_class (Self : Type) : Type := Build_Dataset_class {
  getitem : Self → Obj → M World (list Obj)
}.
Arguments getitem {Self} _ _ _.
Arguments Build_Dataset_class {Self} _.

(** [dataset_with_index]: the subclass [DatasetWithIndex(DatasetClass)] whose
    [__getitem__] is
    [data = super().__getitem__(index); return (index, *data)]. *)
Definition dataset_with_index {Self} (DatasetClass : Dataset_class Self)
  : Dataset_class Self :=
  Build_Dataset_class
    (λ self index, data ← getitem DatasetClass self index; mret (index :: data)).

End DatasetWithIndex.

Arguments Dataset_class : clear implicits.
Arguments getitem {World Obj Self} _ _ _.
Arguments Build_Dataset_class {World Obj Self} _.

Module CustomDatasetWithoutLabels.
Section Def.

Context {World : Type}.
(** [Path] is [pathlib.Path]; [Img] is what [__getitem__] handles: a
    [PIL.Image] or what the transform makes of it. *)
Context {Path Img : Type}.
(** The external operations the class calls: [Path(root)], [root / name],
    [os.listdir(root)], [Image.open(path)] and [image.convert(mode)]. *)
Context (Path_new : string → Path) (Path_truediv : Path → string → Path).
Context (os_listdir : string → M World (list string)).
Context (Image_open : Path → M World Img).
Context (Image_convert : Img → string → M World Img).

Record t : Type := Build {
  root : Path;
  transform : option (Img → M World Img);
  images : list string
}.

(** [__init__(self, root, transform=None)]. *)
Definition init (root : string) (transform : option (Img → M World Img))
  : M World t :=
  images ← os_listdir root;
  mret (Build (Path_new root) transform images).

(** [__getitem__(self, index)]. *)
Definition getitem (self : t) (index : Z) : M World (Img * Z) :=
  name ← lift (list_getitem (images self) index);
  let path := Path_truediv (root self) name in
  img ← Image_open path;
  x ← Image_convert img "RGB";
  x ← match transform self with
      | Some f => f x
      | None => mret x
      end;
  mret (x, -1).

(** [__len__(self)]. *)
Definition len (self : t) : Z := Z.of_nat (length (images self)).

End Def.
Arguments t : clear implicits.
Arguments Build {World Path Img} _ _ _.
End CustomDatasetWithoutLabels.

(** ** Pipelines *)

(** The Python values the factory functions receive and forward. A [float] is
    held by the rational its literal denotes: the module forwards floats and
    never computes with them. *)
Inductive pyval : Type :=
| PyNone
| PyBool (b : bool)
| PyInt (z : Z)
| PyFloat (q : Q)
| PyStr (s : string)
| PyTuple (l : list pyval).

Inductive np_dtype : Type := np_float16.

(** The step objects of the external libraries (ffcv, torchvision): an object
    is held by the class it is an instance of and the arguments it was built
    with. These are values only; building one is the call [new] below, which
    runs the library's constructor and raises when the constructor does.

    Modelled from the spec: [GaussianBlur] and [Solarization] are classes of
    [solo.utils.pretrain_dataloader], which this module imports and builds
    without arguments; as the spec says of every augmentation primitive, they
    are pre-built steps whose internals are out of scope. *)
Inductive step : Type :=
| RandomResizedCropRGBImageDecoder (output_size : pyval * pyval) (scale : pyval * pyval)
| RandomApply (transforms : list step) (p : pyval)
| ColorJitter (brightness contrast saturation hue : pyval)
| RandomGrayscale (p : pyval)
| GaussianBlur
| Solarization
| RandomHorizontalFlip (flip_prob : pyval)
| ToTensor
| ToDevice (device : pyval) (non_blocking : bool)
| ToTorchImage
| NormalizeImage (mean std : Q * Q * Q) (type : np_dtype)
| IntDecoder
| Squeeze.

(** The class a step is an instance of. *)
Definition step_class (s : step) : string :=
  match s with
  | RandomResizedCropRGBImageDecoder _ _ => "RandomResizedCropRGBImageDecoder"
  | RandomApply _ _ => "RandomApply"
  | ColorJitter _ _ _ _ => "ColorJitter"
  | RandomGrayscale _ => "RandomGrayscale"
  | GaussianBlur => "GaussianBlur"
  | Solarization => "Solarization"
  | RandomHorizontalFlip _ => "RandomHorizontalFlip"
  | ToTensor => "ToTensor"
  | ToDevice _ _ => "ToDevice"
  | ToTorchImage => "ToTorchImage"
  | NormalizeImage _ _ _ => "NormalizeImage"
  | IntDecoder => "IntDecoder"
  | Squeeze => "Squeeze"
  end.



(** The parameters of [imagenet_pipelines], once bound. *)
Record imagenet_args : Type := Build_imagenet_args {
  brightness : pyval;
  contrast : pyval;
  saturation : pyval;
  hue : pyval;
  color_jitter_prob : pyval;
  gray_scale_prob : pyval;
  horizontal_flip_prob : pyval;
  gaussian_prob : pyval;
  solarization_prob : pyval;
  min_scale : pyval;
  max_scale : pyval;
  crop_size : pyval;
  device : pyval
}.

(** The value of the local variable [image_pipeline] once every constructor
    has returned. *)
Definition image_pipeline (a : imagenet_args) : list step :=
  [ RandomResizedCropRGBImageDecoder (crop_size a, crop_size a) (min_scale a, max_scale a);
    RandomApply
      [ColorJitter (brightness a) (contrast a) (saturation a) (hue a)]
      (color_jitter_prob a);
    RandomGrayscale (gray_scale_prob a);
    RandomApply [GaussianBlur] (gaussian_prob a);
    RandomApply [Solarization] (solarization_prob a);
    RandomHorizontalFlip (horizontal_flip_prob a);
    ToTensor;
    ToDevice (device a) true;
    ToTorchImage;
    NormalizeImage (0.485, 0.456, 0.406)%Q (0.228, 0.224, 0.225)%Q np_float16 ].

(** The value of the local variable [label_pipeline] once every constructor
    has returned. *)
Definition label_pipeline (a : imagenet_args) : list step :=
  [ IntDecoder; ToTensor; Squeeze; ToDevice (device a) true ].

(** The parameter names of [imagenet_pipelines]. *)
Definition imagenet_params : list string :=
  [ "brightness"; "contrast"; "saturation"; "hue"; "color_jitter_prob";
    "gray_scale_prob"; "horizontal_flip_prob"; "gaussian_prob";
    "solarization_prob"; "min_scale"; "max_scale"; "crop_size"; "device" ].

(** Binding of [**kwargs] to the signature of [imagenet_pipelines]: a keyword
    that is no parameter, or a missing parameter without default, raises
    [TypeError]; a missing optional parameter takes its default. *)
Definition bind_imagenet_pipelines (kwargs : gmap string pyval)
  : outcome imagenet_args :=
  if bool_decide (dom kwargs ⊆ list_to_set imagenet_params) then
    match kwargs !! "brightness", kwargs !! "contrast",
          kwargs !! "saturation", kwargs !! "hue" with
    | Some b, Some c, Some s, Some h =>
        Return (Build_imagenet_args b c s h
          (default (PyFloat 0.8) (kwargs !! "color_jitter_prob"))
          (default (PyFloat 0.2) (kwargs !! "gray_scale_prob"))
          (default (PyFloat 0.5) (kwargs !! "horizontal_flip_prob"))
          (default (PyFloat 0.5) (kwargs !! "gaussian_prob"))
          (default (PyFloat 0.0) (kwargs !! "solarization_prob"))
          (default (PyFloat 0.08) (kwargs !! "min_scale"))
          (default (PyFloat 1.0) (kwargs !! "max_scale"))
          (default (PyInt 224) (kwargs !! "crop_size"))
          (default (PyInt 0) (kwargs !! "device")))
    | _, _, _, _ =>
        Raise (TypeError "imagenet_pipelines() missing required positional arguments")
    end
  else Raise (TypeError "imagenet_pipelines() got an unexpected keyword argument").

Section Pipelines.

Context {World : Type}.
(** The external libraries: [construct s] is what running the constructor of
    the class of [s] on the arguments of [s] does, apart from returning the
    object. It may check its arguments and raise, and it may change the
    world. *)
Context (construct : step → M World unit).

(** A constructor call: it returns the object unless the constructor
    raises. *)
Definition new (s : step) : M World step := _ ← construct s; mret s.

(** [imagenet_pipelines], on bound parameters: the constructor calls in the
    order Python evaluates them (the elements of a list display from left to
    right, the arguments of a call before the call), then the dictionary.
    Nothing catches what a constructor raises. *)
Definition imagenet_pipelines (a : imagenet_args) : M World (gmap string (list step)) :=
  s0 ← new (RandomResizedCropRGBImageDecoder
              (crop_size a, crop_size a) (min_scale a, max_scale a));
  cj ← new (ColorJitter (brightness a) (contrast a) (saturation a) (hue a));
  s1 ← new (RandomApply [cj] (color_jitter_prob a));
  s2 ← new (RandomGrayscale (gray_scale_prob a));
  gb ← new GaussianBlur;
  s3 ← new (RandomApply [gb] (gaussian_prob a));
  so ← new Solarization;
  s4 ← new (RandomApply [so] (solarization_prob a));
  s5 ← new (RandomHorizontalFlip (horizontal_flip_prob a));
  s6 ← new ToTensor;
  s7 ← new (ToDevice (device a) true);
  s8 ← new ToTorchImage;
  s9 ← new (NormalizeImage (0.485, 0.456, 0.406)%Q (0.228, 0.224, 0.225)%Q np_float16);
  let image_pipeline := [s0; s1; s2; s3; s4; s5; s6; s7; s8; s9] in
  l0 ← new IntDecoder;
  l1 ← new ToTensor;
  l2 ← new Squeeze;
  l3 ← new (ToDevice (device a) true);
  let label_pipeline := [l0; l1; l2; l3] in
  mret {[ "image" := image_pipeline; "label" := label_pipeline ]}.

(** The call of [imagenet_pipelines] with the keyword arguments [kwargs]. *)
Definition imagenet_pipelines_kwargs (kwargs : gmap string pyval)
  : M World (gmap string (list step)) :=
  a ← lift (bind_imagenet_pipelines kwargs); imagenet_pipelines a.

(** [prepare_transform(dataset, **kwargs)]. *)
Definition prepare_transform (dataset : string) (kwargs : gmap string pyval)
  : M World (gmap string (list step)) :=
  if bool_decide (dataset ∈ ["imagenet"; "imagenet100"]) then
    imagenet_pipelines_kwargs kwargs
  else lift (Raise (ValueError (dataset +:+ " is not currently supported."))).

End Pipelines.

(** The library [construct] with a log: every constructor call is noted in
    the second component of the world, whether it returns or raises. *)
Definition traced {World} (construct : step → M World unit)
  : step → M (World * list step) unit :=
  λ s wl, let '(o, w') := construct s wl.1 in (o, (w', wl.2 ++ [s])).

(** The constructor calls in the body of [imagenet_pipelines], in the order
    of evaluation: the 13 of the image pipeline ([ColorJitter],
    [GaussianBlur] and [Solarization] before the [RandomApply] that wraps
    them), then the 4 of the label pipeline. *)
Definition imagenet_calls (a : imagenet_args) : list step :=
  [ RandomResizedCropRGBImageDecoder (crop_size a, crop_size a) (min_scale a, max_scale a);
    ColorJitter (brightness a) (contrast a) (saturation a) (hue a);
    RandomApply
      [ColorJitter (brightness a) (contrast a) (saturation a) (hue a)]
      (color_jitter_prob a);
    RandomGrayscale (gray_scale_prob a);
    GaussianBlur;
    RandomApply [GaussianBlur] (gaussian_prob a);
    Solarization;
    RandomApply [Solarization] (solarization_prob a);
    RandomHorizontalFlip (horizontal_flip_prob a);
    ToTensor;
    ToDevice (device a) true;
    ToTorchImage;
    NormalizeImage (0.485, 0.456, 0.406)%Q (0.228, 0.224, 0.225)%Q np_float16;
    IntDecoder;
    ToTensor;
    Squeeze;
    ToDevice (device a) true ].

(** ** The data loader *)

Inductive OrderOption : Type := SEQUENTIAL | RANDOM | QUASI_RANDOM.

Module Loader.
(** The arguments [prepare_dataloader] passes to the constructor of
    [ffcv.loader.Loader]: the file name positionally, the rest by keyword. *)
Record kwargs : Type := Build {
  fname : string;
  batch_size : Z;
  num_workers : Z;
  order : OrderOption;
  os_cache : bool;
  drop_last : bool;
  pipelines : gmap string (list step);
  distributed : bool
}.
End Loader.

Section PrepareDataloader.

Context {World : Type}.
(** [LoaderT] is the class [ffcv.loader.Loader], [Loader] its constructor. *)
Context {LoaderT : Type} (Loader : Loader.kwargs → M World LoaderT).

(** [prepare_dataloader]; an optional argument left out is [None] here and
    takes the default of the signature. *)
Definition prepare_dataloader (train_ffcv_dataset : string)
  (pipelines : gmap string (list step))
  (batch_size num_workers : option Z) (distributed fit_mem : option bool)
  : M World LoaderT :=
  let batch_size := default 64 batch_size in
  let num_workers := default 4 num_workers in
  let distributed := default false distributed in
  let fit_mem := default false fit_mem in
  let order := if distributed then RANDOM else QUASI_RANDOM in
  train_loader ← Loader (Loader.Build train_ffcv_dataset batch_size num_workers
                           order fit_mem true pipelines distributed);
  mret train_loader.

End PrepareDataloader.

(** ** Small concrete instances, on which the definitions run *)

Module Toy.

(** A world that is a counter, standing for the state of a random number
    generator: every application of [jitter] reads it and advances it. *)
Definition jitter (x : Z) : M nat Z := λ w, (Return (x + Z.of_nat w), S w).

(** A transform that raises once the counter has reached 2. *)
Definition flaky (x : Z) : M nat Z := λ w,
  if bool_decide (w < 2)%nat then (Return (x + Z.of_nat w), S w)
  else (Raise (OtherError "RuntimeError"), w).

(** A dataset class whose instances are lists of items, indexed by [int]. *)
Definition list_dataset : Dataset_class nat Z (list (list Z)) :=
  Build_Dataset_class (λ self index, lift (list_getitem self index)).

(** A file system that holds one listing per directory; images are named by
    their path and mode. *)
Definition listdir (root : string) : M (gmap string (list string)) (list string) :=
  λ fs, match fs !! root with
        | Some names => (Return names, fs)
        | None => (Raise (OtherError "FileNotFoundError"), fs)
        end.
Definition truediv (p name : string) : string := p +:+ "/" +:+ name.
Definition open (p : string) : M (gmap string (list string)) string :=
  λ fs, (Return p, fs).
Definition convert (img mode : string) : M (gmap string (list string)) string :=
  λ fs, (Return (img +:+ ":" +:+ mode), fs).
Definition fs0 : gmap string (list string) := {[ "data" := ["a.png"; "b.png"; "c.png"] ]}.

(** An external [Loader] constructor that keeps the arguments it is given. *)
Definition Loader (kw : Loader.kwargs) : M unit Loader.kwargs := λ w, (Return kw, w).

(** Libraries of step constructors. [accept]: every constructor returns.
    [logging]: every constructor returns, and the world lists the calls made,
    in order. [strict]: two checks of the kind real libraries make, a
    [ColorJitter] that refuses a negative brightness with [ValueError] and a
    [NormalizeImage] that refuses mean and std given as tuples with
    [TypeError]. *)
Definition accept (s : step) : M unit unit := λ w, (Return (), w).
Definition logging (s : step) : M (list step) unit := λ w, (Return (), w ++ [s]).
Definition negative (v : pyval) : bool :=
  match v with
  | PyInt z => bool_decide (z < 0)
  | PyFloat q => bool_decide (Qnum q < 0)
  | _ => false
  end.
Definition strict (s : step) : M unit unit := λ w,
  match s with
  | ColorJitter b _ _ _ =>
      if negative b then
        (Raise (ValueError "If brightness is a single number, it must be non negative."), w)
      else (Return (), w)
  | NormalizeImage _ _ _ =>
      (Raise (TypeError "tuple indices must be integers or slices, not tuple"), w)
  | _ => (Return (), w)
  end.

(** Keyword arguments that bind: the four required ones and a crop size. *)
Definition kwargs0 : gmap string pyval :=
  {[ "brightness" := PyFloat 0.4; "contrast" := PyFloat 0.4;
     "saturation" := PyFloat 0.2; "hue" := PyFloat 0.1;
     "crop_size" := PyInt 96 ]}.
(** What [kwargs0] binds to. *)
Definition args0 : imagenet_args :=
  Build_imagenet_args (PyFloat 0.4) (PyFloat 0.4) (PyFloat 0.2) (PyFloat 0.1)
    (PyFloat 0.8) (PyFloat 0.2) (PyFloat 0.5) (PyFloat 0.5) (PyFloat 0.0)
    (PyFloat 0.08) (PyFloat 1.0) (PyInt 96) (PyInt 0).

End Toy.

(** ** String representations *)

(** Python's [sep.join(l)] on a list of strings. *)
Fixpoint str_join (sep : string) (l : list string) : string :=
  match l with
  | [] => ""
  | s :: l' =>
      match l' with
      | [] => s
      | _ :: _ => s +:+ sep +:+ str_join sep l'
      end
  end.

(** The one-character string of a line feed. *)
Definition newline : string := String (Ascii.ascii_of_nat 10) EmptyString.

Section Repr.

Context {World Image Tensor : Type}.
(** [str(transform)] of the transform objects, which the libraries define. *)
Context (str_transform : (Image → M World Tensor) → string).

(** [NCropAugmentation.__repr__]: the f-string
    [{self.num_crops} x [{self.transform}]], the count in decimal. *)
Definition NCropAugmentation_repr (self : NCropAugmentation World Image Tensor)
  : string :=
  pretty (num_crops self) +:+ " x [" +:+ str_transform (transform self) +:+ "]".

(** [FullTransformPipeline.__repr__]: the strings of the transforms, one per
    line; [str] is the [str(transform)] of its transforms. *)
Definition FullTransformPipeline_repr {C} (str : C → string)
  (self : FullTransformPipeline C) : string :=
  str_join newline (str <$> transforms self).

End Repr.

(** * Properties *)

(** ** The monad *)

Section MonadFacts.

Context {World : Type}.

Lemma bind_Return {A B} (c : M World A) (f : A → M World B) w a w1 :
  c w = (Return a, w1) → (c ≫= f) w = f a w1.
Proof. intros Hc. unfold mbind, M_bind. by rewrite Hc. Qed.

Lemma bind_Raise {A B} (c : M World A) (f : A → M World B) w e w1 :
  c w = (Raise e, w1) → (c ≫= f) w = (Raise e, w1).
Proof. intros Hc. unfold mbind, M_bind. by rewrite Hc. Qed.

Lemma bind_Return_inv {A B} (c : M World A) (f : A → M World B) w b w' :
  (c ≫= f) w = (Return b, w') →
  ∃ a w1, c w = (Return a, w1) ∧ f a w1 = (Return b, w').
Proof.
  unfold mbind, M_bind. destruct (c w) as [[a|e] w1]; intros H.
  - by exists a, w1.
  - discriminate.
Qed.

Lemma bind_Raise_inv {A B} (c : M World A) (f : A → M World B) w e w' :
  (c ≫= f) w = (Raise e, w') →
  c w = (Raise e, w') ∨ ∃ a w1, c w = (Return a, w1) ∧ f a w1 = (Raise e, w').
Proof.
  unfold mbind, M_bind. destruct (c w) as [[a|e1] w1]; intros H.
  - right. by exists a, w1.
  - left. by injection H as -> ->.
Qed.

Lemma ret_Return_inv {A} (a b : A) (w w' : World) :
  mret (M := M World) a w = (Return b, w') → a = b ∧ w = w'.
Proof. unfold mret, M_ret. by intros [= -> ->]. Qed.

End MonadFacts.

(** ** Python's [sum] and [range] *)

Lemma py_sum_from (l : list Z) (a : Z) : fold_left Z.add l a = a + py_sum l.
Proof.
  unfold py_sum. revert a. induction l as [|z l IH]; intros a; simpl; [lia|].
  rewrite (IH (a + z)), (IH (0 + z)). lia.
Qed.

Lemma py_sum_cons (z : Z) (l : list Z) : py_sum (z :: l) = z + py_sum l.
Proof. unfold py_sum at 1. simpl. apply py_sum_from. Qed.

Lemma length_range (n : Z) : length (range n) = Z.to_nat n.
Proof. unfold range. apply length_seqZ. Qed.

(** ** N-crop repetition and concatenation *)

Section CropFacts.

Context {World Image Tensor : Type}.
Implicit Types (t : Image → M World Tensor) (x : Image) (w : World).

(** A comprehension that ignores its loop variable applies [t x] once per
    element of the list it ranges over. *)
Lemma list_comprehension_crops {I} t x (l : list I) w out w' :
  list_comprehension (λ _, t x) l w = (Return out, w') ↔
  crops t x w out w' ∧ length out = length l.
Proof.
  revert w out. induction l as [|i l IH]; intros w out; simpl.
  - split.
    + intros [<- <-]%ret_Return_inv. split; [constructor | done].
    + intros [Hc Hl]. destruct out; [|done]. by inversion Hc.
  - split.
    + intros (y & w1 & Ht & H)%bind_Return_inv.
      apply bind_Return_inv in H as (ys & w2 & Hys & [<- <-]%ret_Return_inv).
      apply IH in Hys as [Hc Hl]. split; [by econstructor | by simpl; f_equal].
    + intros [Hc Hl]. destruct out as [|y out]; [done|].
      inversion Hc as [|? ? w1 ? ? Ht Hc']; subst.
      rewrite (bind_Return _ _ _ _ _ Ht).
      assert (list_comprehension (λ _ : I, t x) l w1 = (Return out, w')) as Hys.
      { apply IH. split; [done | by injection Hl]. }
      by rewrite (bind_Return _ _ _ _ _ Hys).
Qed.

Lemma list_comprehension_returns {I} t x (l : list I) w :
  always_returns (t x) →
  ∃ out w', list_comprehension (λ _, t x) l w = (Return out, w').
Proof.
  intros Ht. revert w. induction l as [|i l IH]; intros w; simpl.
  - by exists [], w.
  - destruct (Ht w) as (y & w1 & Hy). destruct (IH w1) as (ys & w2 & Hys).
    exists (y :: ys), w2.
    rewrite (bind_Return _ _ _ _ _ Hy). by rewrite (bind_Return _ _ _ _ _ Hys).
Qed.

Lemma NCropAugmentation_call_iff t (n : Z) x w out w' :
  call (Build_NCropAugmentation t n) x w = (Return out, w') ↔
  crops t x w out w' ∧ length out = Z.to_nat n.
Proof.
  unfold call, NCropAugmentation_Callable, NCropAugmentation_call. simpl.
  rewrite list_comprehension_crops. by rewrite length_range.
Qed.

(** C2. For every transform [t], non-negative [n] and image [x], the call
    [NCropAugmentation(t, n)(x)] returns [out] exactly when [out] has [n]
    elements, each the result of one application of [t] to the same [x] (the
    applications follow one another in the world); and it does return
    whenever [t] returns on [x]. *)
Theorem NCropAugmentation_call_n_crops t (n : Z) x w :
  0 ≤ n →
  (∀ out w', call (Build_NCropAugmentation t n) x w = (Return out, w') ↔
             crops t x w out w' ∧ Z.of_nat (length out) = n) ∧
  (always_returns (t x) →
   ∃ out w', call (Build_NCropAugmentation t n) x w = (Return out, w')).
Proof.
  intros Hn. split.
  - intros out w'. rewrite NCropAugmentation_call_iff.
    split; intros [Hc Hl]; (split; [done | lia]).
  - intros Ht. apply list_comprehension_returns, Ht.
Qed.

End CropFacts.

Section PipelineFacts.

Context {World Image Tensor : Type}.
Implicit Types (t : Image → M World Tensor) (x : Image) (w : World).
Implicit Types (T : list (Image → M World Tensor)) (N : list Z).
Implicit Types (l : list (NCropAugmentation World Image Tensor)).

Lemma prepare_n_crop_loop_app (pairs : list ((Image → M World Tensor) * Z)) l :
  prepare_n_crop_loop pairs l =
  l ++ ((λ p, Build_NCropAugmentation p.1 p.2) <$> pairs).
Proof.
  unfold prepare_n_crop_loop. revert l.
  induction pairs as [|p pairs IH]; intros l; simpl.
  - by rewrite app_nil_r.
  - rewrite IH. by rewrite <- app_assoc.
Qed.

Lemma fmap_zip_NCropAugmentation T N :
  (λ p, Build_NCropAugmentation p.1 p.2) <$> zip T N =
  zip_with Build_NCropAugmentation T N.
Proof.
  revert N. induction T as [|t T IH]; intros [|n N]; simpl; try done.
  by rewrite IH.
Qed.

Lemma prepare_n_crop_transform_Return T N :
  length T = length N →
  prepare_n_crop_transform T N =
  Return (Build_FullTransformPipeline (zip_with Build_NCropAugmentation T N)).
Proof.
  intros Hlen. unfold prepare_n_crop_transform.
  rewrite bool_decide_eq_true_2 by done.
  by rewrite prepare_n_crop_loop_app, fmap_zip_NCropAugmentation.
Qed.

Lemma num_crops_zip_with T N :
  length T = length N →
  num_crops <$> zip_with Build_NCropAugmentation T N = N.
Proof.
  revert N. induction T as [|t T IH]; intros [|n N]; simpl; try done.
  intros [= Hlen]. by rewrite IH.
Qed.

(** The loop of [FullTransformPipeline.__call__] extends its accumulator by
    the concatenated outputs. *)
Lemma FullTransformPipeline_loop_iff {C} `{!Callable World C Image (list Tensor)}
  (ts : list C) x (acc : list Tensor) w out w' :
  FullTransformPipeline_loop ts x acc w = (Return out, w') ↔
  ∃ out', out = acc ++ out' ∧ concat_outputs x ts w out' w'.
Proof.
  revert acc w. induction ts as [|a ts IH]; intros acc w; simpl.
  - split.
    + intros [<- <-]%ret_Return_inv. exists []. split; [by rewrite app_nil_r | constructor].
    + intros (out' & -> & Hc). inversion Hc; subst. by rewrite app_nil_r.
  - split.
    + intros (ys & w1 & Ha & Hloop)%bind_Return_inv.
      apply IH in Hloop as (out' & -> & Hc).
      exists (ys ++ out'). split; [by rewrite app_assoc | by econstructor].
    + intros (out' & -> & Hc).
      inversion Hc as [|? ? ? ys w1 out2 ? Ha Hc']; subst.
      rewrite (bind_Return _ _ _ _ _ Ha). apply IH.
      exists out2. split; [by rewrite app_assoc | done].
Qed.

Lemma FullTransformPipeline_call_iff {C} `{!Callable World C Image (list Tensor)}
  (p : FullTransformPipeline C) x w out w' :
  call p x w = (Return out, w') ↔ concat_outputs x (transforms p) w out w'.
Proof.
  unfold call at 1, FullTransformPipeline_Callable, FullTransformPipeline_call.
  rewrite FullTransformPipeline_loop_iff. split.
  - by intros (out' & -> & Hc).
  - intros Hc. by exists out.
Qed.

Lemma concat_outputs_length x l w out w' :
  concat_outputs x l w out w' →
  Z.of_nat (length out) = py_sum (Z.max 0 <$> (num_crops <$> l)).
Proof.
  induction 1 as [|a l w ys w1 out w2 Ha _ IH]; [done|].
  rewrite !fmap_cons, py_sum_cons, length_app, Nat2Z.inj_add, IH.
  destruct a as [t n]. apply NCropAugmentation_call_iff in Ha as [_ Hl].
  simpl. lia.
Qed.

Lemma concat_outputs_returns x l w :
  (∀ a, a ∈ l → always_returns (transform a x)) →
  ∃ out w', concat_outputs x l w out w'.
Proof.
  revert w. induction l as [|a l IH]; intros w Hret.
  - exists [], w. constructor.
  - destruct a as [t n].
    destruct (list_comprehension_returns t x (range n) w) as (ys & w1 & Hys).
    { apply (Hret (Build_NCropAugmentation t n)). by left. }
    destruct (IH w1) as (out & w2 & Hout).
    { intros a Ha. apply Hret. by right. }
    exists (ys ++ out), w2. by econstructor.
Qed.

Lemma py_sum_max_nonneg N :
  Forall (λ n, 0 ≤ n) N → py_sum (Z.max 0 <$> N) = py_sum N.
Proof.
  induction 1 as [|n N Hn _ IH]; [done|].
  rewrite fmap_cons, !py_sum_cons, IH. lia.
Qed.

(** C1 (amended). For lists [T] and [N] of equal length and every image [x],
    [prepare_n_crop_transform(T, N)] returns a pipeline whose transforms are
    [NCropAugmentation(T[i], N[i])] in order; calling it on [x] returns
    exactly the concatenation, in order, of the outputs of these on [x]; the
    result has [sum(max(N[i], 0))] elements, which is [sum(N)] when no [N[i]]
    is negative; and the call returns whenever every transform returns on
    [x]. *)
Theorem prepare_n_crop_transform_concat T N x w :
  length T = length N →
  ∃ p, prepare_n_crop_transform T N = Return p ∧
       transforms p = zip_with Build_NCropAugmentation T N ∧
       (∀ out w', call p x w = (Return out, w') ↔
                  concat_outputs x (transforms p) w out w') ∧
       (∀ out w', call p x w = (Return out, w') →
                  Z.of_nat (length out) = py_sum (Z.max 0 <$> N) ∧
                  (Forall (λ n, 0 ≤ n) N → Z.of_nat (length out) = py_sum N)) ∧
       ((∀ t, t ∈ T → always_returns (t x)) →
        ∃ out w', call p x w = (Return out, w')).
Proof.
  intros Hlen. eexists. split; [by apply prepare_n_crop_transform_Return|].
  split; [done|]. split; [intros; apply FullTransformPipeline_call_iff|].
  split.
  - intros out w' Hcall%FullTransformPipeline_call_iff.
    apply concat_outputs_length in Hcall. simpl in Hcall.
    rewrite num_crops_zip_with in Hcall by done.
    split; [done|]. intros HN. by rewrite <- py_sum_max_nonneg.
  - intros Hret.
    destruct (concat_outputs_returns x (zip_with Build_NCropAugmentation T N) w)
      as (out & w' & Hout).
    { intros a (t & n & -> & Ht & _)%elem_of_zip_with. simpl. by apply Hret. }
    exists out, w'. by apply FullTransformPipeline_call_iff.
Qed.

(** C4. [prepare_n_crop_transform] fails its assertion exactly when the two
    lists differ in length, and returns a pipeline when they do not. *)
Theorem prepare_n_crop_transform_assertion T N :
  (prepare_n_crop_transform T N = Raise AssertionError ↔ length T ≠ length N) ∧
  (length T = length N ↔ ∃ p, prepare_n_crop_transform T N = Return p).
Proof.
  unfold prepare_n_crop_transform. case_bool_decide as Hlen.
  - split; split; try done. by eexists.
  - split; split; try done. by intros [p Hp].
Qed.

End PipelineFacts.

(** ** Datasets *)

Section DatasetFacts.

Context {World Obj Self : Type}.

(** C7. The class returned by [dataset_with_index(D)] answers
    [__getitem__(index)] with the tuple [(index, *D.__getitem__(index))]: the
    index first, then every component of the item of [D], unchanged and in
    order; what [D.__getitem__] raises, it raises. *)
Theorem dataset_with_index_getitem (D : Dataset_class World Obj Self)
  (self : Self) (index : Obj) (w : World) :
  (∀ data w', getitem D self index w = (Return data, w') →
     ∃ item, getitem (dataset_with_index D) self index w = (Return item, w') ∧
             item = index :: data ∧
             item !! 0%nat = Some index ∧
             (∀ k, item !! S k = data !! k) ∧
             length item = S (length data)) ∧
  (∀ e w', getitem D self index w = (Raise e, w') →
     getitem (dataset_with_index D) self index w = (Raise e, w')) ∧
  (∀ item w', getitem (dataset_with_index D) self index w = (Return item, w') →
     ∃ data, getitem D self index w = (Return data, w') ∧ item = index :: data).
Proof.
  split; [|split].
  - intros data w' HD. exists (index :: data). split; [|done].
    simpl. by rewrite (bind_Return _ _ _ _ _ HD).
  - intros e w' HD. simpl. by rewrite (bind_Raise _ _ _ _ _ HD).
  - intros item w' (data & w1 & HD & [<- <-]%ret_Return_inv)%bind_Return_inv.
    by exists data.
Qed.

End DatasetFacts.

Lemma list_getitem_valid {A} (l : list A) (index : Z) :
  valid_index l index → ∃ a, list_getitem l index = Return a.
Proof.
  unfold valid_index, list_getitem. intros Hv.
  set (i := if bool_decide (index < 0) then Z.of_nat (length l) + index else index).
  assert (0 ≤ i < Z.of_nat (length l)) as Hi.
  { unfold i. case_bool_decide; lia. }
  rewrite bool_decide_eq_true_2 by lia.
  destruct (lookup_lt_is_Some_2 l (Z.to_nat i)) as [a Ha]; [lia|].
  rewrite Ha. by exists a.
Qed.

Section CustomDatasetFacts.

Import CustomDatasetWithoutLabels.

Context {World Path Img : Type}.
Context (Path_new : string → Path) (Path_truediv : Path → string → Path).
Context (os_listdir : string → M World (list string)).
Context (Image_open : Path → M World Img).
Context (Image_convert : Img → string → M World Img).

Local Abbreviation getitem := (getitem Path_truediv Image_open Image_convert).
Local Abbreviation init := (init Path_new os_listdir).

Lemma CustomDatasetWithoutLabels_getitem_label self index w item w' :
  getitem self index w = (Return item, w') → item.2 = -1.
Proof.
  unfold CustomDatasetWithoutLabels.getitem.
  intros (name & w1 & _ & H)%bind_Return_inv.
  apply bind_Return_inv in H as (img & w2 & _ & H).
  apply bind_Return_inv in H as (x & w3 & _ & H).
  apply bind_Return_inv in H as (x' & w4 & _ & [<- _]%ret_Return_inv).
  done.
Qed.

(** C8. For an instance built by [__init__(root, transform)]: [__len__] is
    the number of entries [os.listdir(root)] listed when the instance was
    built; whatever [__getitem__] returns, at any index, is a pair whose
    second component is [-1]; and at every index valid for the instance it
    does return such a pair whenever opening, converting and transforming the
    image return. *)
Theorem CustomDatasetWithoutLabels_dummy_label_and_len
  (root : string) (transform : option (Img → M World Img)) (w0 w1 : World)
  (self : t World Path Img) :
  init root transform w0 = (Return self, w1) →
  (∃ names, os_listdir root w0 = (Return names, w1) ∧
            images self = names ∧
            len self = Z.of_nat (length names)) ∧
  (∀ index w item w', getitem self index w = (Return item, w') → item.2 = -1) ∧
  (∀ index w,
     valid_index (images self) index →
     (∀ p, always_returns (Image_open p)) →
     (∀ img mode, always_returns (Image_convert img mode)) →
     (∀ f x, transform = Some f → always_returns (f x)) →
     ∃ x w', getitem self index w = (Return (x, -1), w')).
Proof.
  intros (names & w2 & Hls & [<- <-]%ret_Return_inv)%bind_Return_inv.
  split; [by exists names|]. split.
  - intros index w item w'. apply CustomDatasetWithoutLabels_getitem_label.
  - intros index w Hvalid Hopen Hconv Htr. simpl in Hvalid.
    destruct (list_getitem_valid _ _ Hvalid) as [name Hname].
    unfold CustomDatasetWithoutLabels.getitem. simpl.
    rewrite (bind_Return _ _ w name w) by (unfold lift; by rewrite Hname).
    destruct (Hopen (Path_truediv (Path_new root) name) w) as (img & wa & Himg).
    rewrite (bind_Return _ _ _ _ _ Himg).
    destruct (Hconv img "RGB" wa) as (x & wb & Hx).
    rewrite (bind_Return _ _ _ _ _ Hx).
    destruct transform as [f|].
    + destruct (Htr f x eq_refl wb) as (x' & wc & Hx').
      rewrite (bind_Return _ _ _ _ _ Hx'). by exists x', wc.
    + by exists x, wb.
Qed.

End CustomDatasetFacts.

(** ** Pipelines *)

Section PipelineStepFacts.

Context {World : Type} (construct : step → M World unit).

Lemma new_Return_inv s w o w' :
  new construct s w = (Return o, w') → o = s ∧ construct s w = (Return (), w').
Proof.
  unfold new. intros (u & w1 & Hc & [<- <-]%ret_Return_inv)%bind_Return_inv.
  by destruct u.
Qed.

Lemma new_Raise_inv s w e w' :
  new construct s w = (Raise e, w') → construct s w = (Raise e, w').
Proof.
  unfold new. intros [H|(u & w1 & _ & H)]%bind_Raise_inv; [done|].
  unfold mret, M_ret in H. discriminate.
Qed.

Lemma new_returns s w :
  always_returns (construct s) → ∃ w', new construct s w = (Return s, w').
Proof.
  intros Hs. destruct (Hs w) as (u & w' & Hc). exists w'.
  unfold new. by rewrite (bind_Return _ _ _ _ _ Hc).
Qed.

(** What [imagenet_pipelines] returns, when it returns. *)
Lemma imagenet_pipelines_Return_inv a w r w' :
  imagenet_pipelines construct a w = (Return r, w') →
  r = {[ "image" := image_pipeline a; "label" := label_pipeline a ]}.
Proof.
  unfold imagenet_pipelines. intros H.
  repeat (apply bind_Return_inv in H as (? & ? & [-> _]%new_Return_inv & H)).
  by apply ret_Return_inv in H as [<- _].
Qed.

(** [imagenet_pipelines] raises only what a constructor raised. *)
Lemma imagenet_pipelines_Raise_inv a w e w' :
  imagenet_pipelines construct a w = (Raise e, w') →
  ∃ s w0, construct s w0 = (Raise e, w').
Proof.
  unfold imagenet_pipelines. intros H.
  repeat (apply bind_Raise_inv in H as [H%new_Raise_inv|(? & ? & _ & H)];
          [by eauto|]).
  unfold mret, M_ret in H. discriminate.
Qed.

Lemma imagenet_pipelines_returns a w :
  (∀ s, always_returns (construct s)) →
  ∃ w', imagenet_pipelines construct a w
        = (Return {[ "image" := image_pipeline a; "label" := label_pipeline a ]}, w').
Proof.
  intros Hret. unfold imagenet_pipelines.
  repeat match goal with
         | |- ∃ w', (new construct ?s ≫= _) ?w0 = _ =>
             let Hn := fresh "Hn" in
             destruct (new_returns s w0 (Hret s)) as [? Hn];
             rewrite (bind_Return _ _ _ _ _ Hn); clear Hn
         end.
  by eexists.
Qed.

Lemma imagenet_pipelines_kwargs_bound (kwargs : gmap string pyval) a w :
  bind_imagenet_pipelines kwargs = Return a →
  imagenet_pipelines_kwargs construct kwargs w = imagenet_pipelines construct a w.
Proof.
  intros Ha. unfold imagenet_pipelines_kwargs.
  apply bind_Return. unfold lift. by rewrite Ha.
Qed.

Lemma imagenet_pipelines_kwargs_unbound (kwargs : gmap string pyval) e w :
  bind_imagenet_pipelines kwargs = Raise e →
  imagenet_pipelines_kwargs construct kwargs w = (Raise e, w) ∧ ∃ msg, e = TypeError msg.
Proof.
  intros He. split.
  - unfold imagenet_pipelines_kwargs. apply bind_Raise. unfold lift. by rewrite He.
  - revert He. unfold bind_imagenet_pipelines.
    case_bool_decide; [|intros [= <-]; by eexists].
    destruct (kwargs !! "brightness"), (kwargs !! "contrast"),
      (kwargs !! "saturation"), (kwargs !! "hue");
      simpl; intros [= <-]; by eexists.
Qed.

(** The exceptions of [imagenet_pipelines] called with keywords: a
    [TypeError] of the binding, or what a constructor raised. *)
Lemma imagenet_pipelines_kwargs_Raise_inv (kwargs : gmap string pyval) w e w' :
  imagenet_pipelines_kwargs construct kwargs w = (Raise e, w') →
  (∃ msg, e = TypeError msg) ∨ ∃ s w0, construct s w0 = (Raise e, w').
Proof.
  destruct (bind_imagenet_pipelines kwargs) as [a|e0] eqn:Hb.
  - rewrite (imagenet_pipelines_kwargs_bound _ a) by done.
    intros H%imagenet_pipelines_Raise_inv. by right.
  - destruct (imagenet_pipelines_kwargs_unbound kwargs e0 w Hb) as [-> Hmsg].
    intros [= <- <-]. by left.
Qed.

(** C3 (amended). [prepare_transform] raises its own [ValueError], naming
    the dataset and calling nothing, exactly when the dataset name is neither
    [imagenet] nor [imagenet100]; for these two names it does what
    [imagenet_pipelines] does on the keyword arguments, result, exception and
    world alike: it checks nothing else. So a [ValueError] comes from an
    unsupported name or from a step constructor, and only from the name when
    no constructor raises one. *)
Theorem prepare_transform_validation (dataset : string) (kwargs : gmap string pyval)
  (w : World) :
  (dataset ≠ "imagenet" ∧ dataset ≠ "imagenet100" →
   prepare_transform construct dataset kwargs w
   = (Raise (ValueError (dataset +:+ " is not currently supported.")), w)) ∧
  (dataset = "imagenet" ∨ dataset = "imagenet100" →
   prepare_transform construct dataset kwargs w
   = imagenet_pipelines_kwargs construct kwargs w ∧
   ∀ a, bind_imagenet_pipelines kwargs = Return a →
        prepare_transform construct dataset kwargs w
        = imagenet_pipelines construct a w) ∧
  (∀ msg w', prepare_transform construct dataset kwargs w = (Raise (ValueError msg), w') →
     (dataset ≠ "imagenet" ∧ dataset ≠ "imagenet100") ∨
     ∃ s w0, construct s w0 = (Raise (ValueError msg), w')) ∧
  ((∀ s w0 msg w1, construct s w0 ≠ (Raise (ValueError msg), w1)) →
   ((∃ msg w', prepare_transform construct dataset kwargs w = (Raise (ValueError msg), w')) ↔
    dataset ≠ "imagenet" ∧ dataset ≠ "imagenet100")).
Proof.
  assert (∀ msg w',
    prepare_transform construct dataset kwargs w = (Raise (ValueError msg), w') →
    (dataset ≠ "imagenet" ∧ dataset ≠ "imagenet100") ∨
    ∃ s w0, construct s w0 = (Raise (ValueError msg), w')) as Hfrom.
  { intros msg w'. unfold prepare_transform. case_bool_decide as Hd.
    - intros [[msg' [=]]|H]%imagenet_pipelines_kwargs_Raise_inv. by right.
    - intros _. left. rewrite !elem_of_cons, elem_of_nil in Hd. tauto. }
  unfold prepare_transform in *. case_bool_decide as Hd.
  - assert (dataset = "imagenet" ∨ dataset = "imagenet100") as Hd'.
    { rewrite !elem_of_cons, elem_of_nil in Hd. tauto. }
    split; [intros [? ?]; by destruct Hd'|].
    split; [intros _; split; [done | intros a Ha; by apply imagenet_pipelines_kwargs_bound]|].
    split; [done|]. intros Hno. split.
    + intros (msg & w' & [[? ?]|(s & w0 & Hs)]%Hfrom); [by destruct Hd'|].
      by destruct (Hno s w0 msg w').
    + intros [? ?]. by destruct Hd'.
  - assert (dataset ≠ "imagenet" ∧ dataset ≠ "imagenet100") as Hd'.
    { rewrite !elem_of_cons, elem_of_nil in Hd. tauto. }
    split; [done|]. split; [intros [?|?]; by destruct Hd'|].
    split; [done|]. intros _. split; [done|]. intros _. by eexists _, _.
Qed.


End PipelineStepFacts.

(** ** The data loader *)

Section PrepareDataloaderFacts.

Context {World LoaderT : Type} (Loader : Loader.kwargs → M World LoaderT).

Lemma prepare_dataloader_Loader (train_ffcv_dataset : string)
  (pipelines : gmap string (list step))
  (batch_size num_workers : option Z) (distributed fit_mem : option bool) w :
  prepare_dataloader Loader train_ffcv_dataset pipelines batch_size num_workers
    distributed fit_mem w =
  Loader (Loader.Build train_ffcv_dataset (default 64 batch_size)
            (default 4 num_workers)
            (if default false distributed then RANDOM else QUASI_RANDOM)
            (default false fit_mem) true pipelines (default false distributed)) w.
Proof.
  unfold prepare_dataloader, mbind, M_bind.
  by destruct (Loader _ w) as [[l|e] w'].
Qed.

(** C6. [prepare_dataloader] calls the external [Loader] constructor once and
    returns what it returns; the dataset path, [batch_size], [num_workers],
    the pipelines and the distributed flag reach it as given (the defaults 64,
    4 and [False] when left out), and [fit_mem] reaches it as [os_cache]. *)
Theorem prepare_dataloader_forwards (train_ffcv_dataset : string)
  (pipelines : gmap string (list step))
  (batch_size num_workers : option Z) (distributed fit_mem : option bool) w :
  ∃ kw, prepare_dataloader Loader train_ffcv_dataset pipelines batch_size
          num_workers distributed fit_mem w = Loader kw w ∧
        Loader.fname kw = train_ffcv_dataset ∧
        Loader.batch_size kw = default 64 batch_size ∧
        Loader.num_workers kw = default 4 num_workers ∧
        Loader.pipelines kw = pipelines ∧
        Loader.distributed kw = default false distributed ∧
        Loader.os_cache kw = default false fit_mem.
Proof. eexists. split; [apply prepare_dataloader_Loader | done]. Qed.

(** C9. [prepare_dataloader] always builds the [Loader] with
    [drop_last=True], and with the order [RANDOM] exactly when [distributed]
    is true, [QUASI_RANDOM] otherwise. *)
Theorem prepare_dataloader_order_drop_last (train_ffcv_dataset : string)
  (pipelines : gmap string (list step))
  (batch_size num_workers : option Z) (distributed fit_mem : option bool) w :
  ∃ kw, prepare_dataloader Loader train_ffcv_dataset pipelines batch_size
          num_workers distributed fit_mem w = Loader kw w ∧
        Loader.drop_last kw = true ∧
        (Loader.order kw = RANDOM ↔ default false distributed = true) ∧
        (Loader.order kw = QUASI_RANDOM ↔ default false distributed = false).
Proof.
  eexists. split; [apply prepare_dataloader_Loader|]. simpl.
  by destruct (default false distributed).
Qed.

End PrepareDataloaderFacts.

(** ** Runs on concrete inputs *)

Example NCropAugmentation_jitter_run :
  call (Build_NCropAugmentation Toy.jitter 3) 10 0%nat
  = (Return [10; 11; 12], 3%nat).
Proof. reflexivity. Qed.

Example NCropAugmentation_negative_run :
  call (Build_NCropAugmentation Toy.jitter (-2)) 10 0%nat = (Return [], 0%nat).
Proof. reflexivity. Qed.

Example NCropAugmentation_flaky_run :
  call (Build_NCropAugmentation Toy.flaky 3) 10 0%nat
  = (Raise (OtherError "RuntimeError"), 2%nat).
Proof. reflexivity. Qed.

Example FullTransformPipeline_run :
  (p ← prepare_n_crop_transform [Toy.jitter; Toy.jitter] [2; 1];
   mret (call p 10 0%nat))
  = Return (Return [10; 11; 12], 3%nat).
Proof. reflexivity. Qed.

Example prepare_n_crop_transform_mismatch_run :
  prepare_n_crop_transform [Toy.jitter; Toy.jitter] [2] = Raise AssertionError.
Proof. reflexivity. Qed.

Example dataset_with_index_run :
  getitem (dataset_with_index Toy.list_dataset) [[7; 8]; [9; 10]] 1 0%nat
  = (Return [1; 9; 10], 0%nat).
Proof. reflexivity. Qed.

Example dataset_with_index_raise_run :
  getitem (dataset_with_index Toy.list_dataset) [[7; 8]; [9; 10]] 2 0%nat
  = (Raise (IndexError "list index out of range"), 0%nat).
Proof. reflexivity. Qed.

Example CustomDatasetWithoutLabels_run :
  (self ← CustomDatasetWithoutLabels.init id Toy.listdir "data" None;
   CustomDatasetWithoutLabels.getitem Toy.truediv Toy.open Toy.convert self (-1))
    Toy.fs0
  = (Return ("data/c.png:RGB", -1), Toy.fs0).
Proof. vm_compute. reflexivity. Qed.

Example prepare_transform_accept_run :
  prepare_transform Toy.accept "imagenet100" Toy.kwargs0 tt
  = (Return {[ "image" := image_pipeline Toy.args0;
               "label" := label_pipeline Toy.args0 ]}, tt).
Proof. vm_compute. reflexivity. Qed.

Example prepare_transform_strict_run :
  prepare_transform Toy.strict "imagenet100" Toy.kwargs0 tt
  = (Raise (TypeError "tuple indices must be integers or slices, not tuple"), tt).
Proof. vm_compute. reflexivity. Qed.

Example prepare_transform_unsupported_run :
  prepare_transform Toy.strict "cifar10" ∅ tt
  = (Raise (ValueError "cifar10 is not currently supported."), tt).
Proof. reflexivity. Qed.

Example prepare_transform_unbound_run :
  prepare_transform Toy.strict "imagenet" {[ "brightness" := PyFloat 0.4 ]} tt
  = (Raise (TypeError "imagenet_pipelines() missing required positional arguments"), tt).
Proof. vm_compute. reflexivity. Qed.

Example imagenet_pipelines_calls_run :
  step_class <$> (imagenet_pipelines Toy.logging Toy.args0 []).2
  = [ "RandomResizedCropRGBImageDecoder"; "ColorJitter"; "RandomApply";
      "RandomGrayscale"; "GaussianBlur"; "RandomApply"; "Solarization";
      "RandomApply"; "RandomHorizontalFlip"; "ToTensor"; "ToDevice";
      "ToTorchImage"; "NormalizeImage"; "IntDecoder"; "ToTensor"; "Squeeze";
      "ToDevice" ].
Proof. vm_compute. reflexivity. Qed.

Example prepare_dataloader_run :
  prepare_dataloader Toy.Loader "train.beton" ∅ (Some 256) None (Some true) None tt
  = (Return (Loader.Build "train.beton" 256 4 RANDOM false true ∅ true), tt).
Proof. reflexivity. Qed.

Example prepare_dataloader_defaults_run :
  prepare_dataloader Toy.Loader "train.beton" ∅ None None None (Some true) tt
  = (Return (Loader.Build "train.beton" 64 4 QUASI_RANDOM true true ∅ false), tt).
Proof. reflexivity. Qed.

(** The theorem of C2 at [jitter], three crops of the image 10. *)
Lemma NCropAugmentation_call_n_crops_witness :
  0 ≤ 3 ∧
  (∀ out w', call (Build_NCropAugmentation Toy.jitter 3) 10 0%nat = (Return out, w') ↔
             crops Toy.jitter 10 0%nat out w' ∧ Z.of_nat (length out) = 3) ∧
  (always_returns (Toy.jitter 10) →
   ∃ out w', call (Build_NCropAugmentation Toy.jitter 3) 10 0%nat = (Return out, w')).
Proof.
  split; [lia|]. apply (NCropAugmentation_call_n_crops Toy.jitter 3 10 0%nat). lia.
Defined.

(** The theorem of C1 at two pipelines with two crops and one crop. *)
Lemma prepare_n_crop_transform_concat_witness :
  length [Toy.jitter; Toy.jitter] = length [2; 1] ∧
  ∃ p, prepare_n_crop_transform [Toy.jitter; Toy.jitter] [2; 1] = Return p ∧
       transforms p = zip_with Build_NCropAugmentation [Toy.jitter; Toy.jitter] [2; 1] ∧
       (∀ out w', call p 10 0%nat = (Return out, w') ↔
                  concat_outputs 10 (transforms p) 0%nat out w') ∧
       (∀ out w', call p 10 0%nat = (Return out, w') →
                  Z.of_nat (length out) = py_sum (Z.max 0 <$> [2; 1]) ∧
                  (Forall (λ n, 0 ≤ n) [2; 1] → Z.of_nat (length out) = py_sum [2; 1])) ∧
       ((∀ t, t ∈ [Toy.jitter; Toy.jitter] → always_returns (t 10)) →
        ∃ out w', call p 10 0%nat = (Return out, w')).
Proof.
  split; [reflexivity|].
  apply (prepare_n_crop_transform_concat [Toy.jitter; Toy.jitter] [2; 1] 10 0%nat).
  reflexivity.
Defined.

(** C1 as stated fails at a negative count: with [N = [-1]] the lists have
    equal length, the pipeline returns the empty list, and [sum(N)] is -1. *)
Lemma prepare_n_crop_transform_negative_count :
  length [Toy.jitter] = length [-1] ∧
  ∃ p out w',
    prepare_n_crop_transform [Toy.jitter] [-1] = Return p ∧
    call p 10 0%nat = (Return out, w') ∧
    Z.of_nat (length out) = 0 ∧
    py_sum [-1] = -1 ∧
    Z.of_nat (length out) ≠ py_sum [-1].
Proof.
  split; [reflexivity|].
  eexists _, [], 0%nat. repeat split. discriminate.
Qed.

(** C3 as stated fails where a step constructor raises: with the supported
    name [imagenet] and keywords that bind, a [ColorJitter] that refuses a
    negative brightness makes [prepare_transform] raise [ValueError], and a
    [NormalizeImage] that refuses tuples makes it raise [TypeError] where the
    claim has it return without error. *)
Lemma prepare_transform_constructor_raises :
  prepare_transform Toy.strict "imagenet"
    (<["brightness" := PyFloat (-1)]> Toy.kwargs0) tt
  = (Raise (ValueError "If brightness is a single number, it must be non negative."), tt) ∧
  prepare_transform Toy.strict "imagenet" Toy.kwargs0 tt
  = (Raise (TypeError "tuple indices must be integers or slices, not tuple"), tt).
Proof. split; vm_compute; reflexivity. Qed.


(** The theorem of C8 at a directory of three files. *)
Lemma CustomDatasetWithoutLabels_dummy_label_and_len_witness :
  let self := CustomDatasetWithoutLabels.Build "data" None ["a.png"; "b.png"; "c.png"] in
  CustomDatasetWithoutLabels.init id Toy.listdir "data" None Toy.fs0
    = (Return self, Toy.fs0) ∧
  (∃ names, Toy.listdir "data" Toy.fs0 = (Return names, Toy.fs0) ∧
            CustomDatasetWithoutLabels.images self = names ∧
            CustomDatasetWithoutLabels.len self = Z.of_nat (length names)) ∧
  (∀ index w item w',
     CustomDatasetWithoutLabels.getitem Toy.truediv Toy.open Toy.convert self index w
       = (Return item, w') → item.2 = -1) ∧
  (∃ x w',
     CustomDatasetWithoutLabels.getitem Toy.truediv Toy.open Toy.convert self (-1) Toy.fs0
       = (Return (x, -1), w')).
Proof.
  intros self.
  assert (CustomDatasetWithoutLabels.init id Toy.listdir "data" None Toy.fs0
          = (Return self, Toy.fs0)) as Hinit by (vm_compute; reflexivity).
  split; [exact Hinit|].
  destruct (CustomDatasetWithoutLabels_dummy_label_and_len
              id Toy.truediv Toy.listdir Toy.open Toy.convert
              "data" None Toy.fs0 Toy.fs0 self Hinit)
    as (Hlen & Hlabel & Hret).
  split; [exact Hlen|]. split; [exact Hlabel|].
  apply (Hret (-1) Toy.fs0).
  - unfold valid_index. simpl. lia.
  - intros p fs. by eexists _, _.
  - intros img mode fs. by eexists _, _.
  - intros f x [=].
Defined.

(** * Further properties of the module *)

(** ** N-crop repetition: edges, failures and composition *)

Section CropMore.

Context {World Image Tensor : Type}.
Implicit Types (t : Image → M World Tensor) (x : Image) (w : World).

Lemma list_comprehension_raise {I} t x (l : list I) w out w1 e w2 :
  crops t x w out w1 →
  (length out < length l)%nat →
  t x w1 = (Raise e, w2) →
  list_comprehension (λ _, t x) l w = (Raise e, w2).
Proof.
  intros Hc. revert l. induction Hc as [w|w y wa out wb Hy _ IH]; intros l Hl He.
  - destruct l as [|i l]; [simpl in Hl; lia|]. simpl.
    by rewrite (bind_Raise _ _ _ _ _ He).
  - destruct l as [|i l]; [simpl in Hl; lia|]. simpl.
    rewrite (bind_Return _ _ _ _ _ Hy).
    rewrite (bind_Raise _ _ _ _ _ (IH l ltac:(simpl in Hl; lia) He)). done.
Qed.

Lemma list_comprehension_length_irrelevant {I J} (c : M World Tensor)
  (l : list I) (l' : list J) w :
  length l = length l' →
  list_comprehension (λ _, c) l w = list_comprehension (λ _, c) l' w.
Proof.
  revert l' w. induction l as [|i l IH]; intros [|j l'] w Hl; try done.
  simpl. unfold mbind, M_bind. destruct (c w) as [[y|e] w1]; [|done].
  rewrite (IH l' w1) by (by injection Hl). done.
Qed.

Lemma list_comprehension_app {I} (c : M World Tensor) (l1 l2 : list I) w :
  list_comprehension (λ _, c) (l1 ++ l2) w =
  (ys ← list_comprehension (λ _, c) l1;
   zs ← list_comprehension (λ _, c) l2; mret (ys ++ zs)) w.
Proof.
  revert w. induction l1 as [|i l1 IH]; intros w; simpl.
  - unfold mbind, M_bind, mret, M_ret.
    by destruct (list_comprehension _ l2 w) as [[zs|e] w1].
  - unfold mbind, M_bind, mret, M_ret. destruct (c w) as [[y|e] w1]; [|done].
    rewrite IH. unfold mbind, M_bind, mret, M_ret.
    destruct (list_comprehension _ l1 w1) as [[ys|e] w2]; [|done].
    by destruct (list_comprehension _ l2 w2) as [[zs|e] w3].
Qed.

(** X1. With a count of zero or less, [NCropAugmentation(t, n)(x)] returns
    the empty list and leaves the world as it was: the transform is never
    applied, whatever it would do. *)
Theorem NCropAugmentation_call_nonpositive t (n : Z) x w :
  n ≤ 0 → call (Build_NCropAugmentation t n) x w = (Return [], w).
Proof.
  intros Hn. unfold call, NCropAugmentation_Callable, NCropAugmentation_call.
  simpl. unfold range. by rewrite seqZ_nil.
Qed.

(** X2. If the transform returns for the first crops and then raises before
    the count is reached, [NCropAugmentation(t, n)(x)] raises that exception
    from the world the failing application left; no list is returned. *)
Theorem NCropAugmentation_call_raise t (n : Z) x w out w1 e w2 :
  crops t x w out w1 →
  Z.of_nat (length out) < n →
  t x w1 = (Raise e, w2) →
  call (Build_NCropAugmentation t n) x w = (Raise e, w2).
Proof.
  intros Hc Hl He. unfold call, NCropAugmentation_Callable, NCropAugmentation_call.
  simpl. apply (list_comprehension_raise t x _ w out w1); [done| |done].
  rewrite length_range. lia.
Qed.

(** X3. Crops add up: for non-negative [n] and [m], taking [n + m] crops is
    taking [n] crops, then [m] crops from the world the first left, and
    appending the two lists. *)
Theorem NCropAugmentation_call_add t (n m : Z) x w :
  0 ≤ n → 0 ≤ m →
  call (Build_NCropAugmentation t (n + m)) x w =
  (ys ← call (Build_NCropAugmentation t n) x;
   zs ← call (Build_NCropAugmentation t m) x; mret (ys ++ zs)) w.
Proof.
  intros Hn Hm. unfold call, NCropAugmentation_Callable, NCropAugmentation_call.
  simpl. rewrite <- list_comprehension_app.
  apply list_comprehension_length_irrelevant.
  rewrite length_app, !length_range. lia.
Qed.

(** X4. A transform that returns the same value on [x] from every world and
    leaves the world alone gives [max(n, 0)] copies of that value. *)
Theorem NCropAugmentation_call_pure t (n : Z) x (y : Tensor) w :
  (∀ w0, t x w0 = (Return y, w0)) →
  call (Build_NCropAugmentation t n) x w = (Return (replicate (Z.to_nat n) y), w).
Proof.
  intros Hpure. unfold call, NCropAugmentation_Callable, NCropAugmentation_call.
  simpl. rewrite <- length_range. induction (range n) as [|i l IH]; simpl; [done|].
  rewrite (bind_Return _ _ _ _ _ (Hpure w)).
  by rewrite (bind_Return _ _ _ _ _ IH).
Qed.

End CropMore.

(** ** Concatenation of pipelines: composition and failures *)

Section PipelineMore.

Context {World Image Tensor : Type}.
Context {C : Type} `{!Callable World C Image (list Tensor)}.
Implicit Types (x : Image) (w : World) (ts : list C).

Lemma FullTransformPipeline_loop_acc ts x (acc : list Tensor) w :
  FullTransformPipeline_loop ts x acc w =
  (out ← FullTransformPipeline_loop ts x []; mret (acc ++ out)) w.
Proof.
  revert acc w. induction ts as [|a ts IH]; intros acc w; simpl.
  - unfold mbind, M_bind, mret, M_ret. by rewrite app_nil_r.
  - unfold mbind, M_bind. destruct (call a x w) as [[ys|e] w1]; [|done].
    rewrite (IH (acc ++ ys)), (IH ([] ++ ys)). unfold mbind, M_bind, mret, M_ret.
    destruct (FullTransformPipeline_loop ts x [] w1) as [[out|e] w2]; [|done].
    by rewrite app_assoc.
Qed.

Lemma FullTransformPipeline_loop_app ts1 ts2 x (acc : list Tensor) w :
  FullTransformPipeline_loop (ts1 ++ ts2) x acc w =
  (out ← FullTransformPipeline_loop ts1 x acc;
   FullTransformPipeline_loop ts2 x out) w.
Proof.
  revert acc w. induction ts1 as [|a ts1 IH]; intros acc w; simpl; [done|].
  unfold mbind, M_bind. destruct (call a x w) as [[ys|e] w1]; [|done].
  apply IH.
Qed.

Lemma FullTransformPipeline_loop_raise ts1 a ts2 x (acc : list Tensor) w out w1 e w2 :
  concat_outputs x ts1 w out w1 →
  call a x w1 = (Raise e, w2) →
  FullTransformPipeline_loop (ts1 ++ a :: ts2) x acc w = (Raise e, w2).
Proof.
  intros Hc. revert acc.
  induction Hc as [w|b l w ys wa out wb Hb _ IH]; intros acc Ha; simpl.
  - by rewrite (bind_Raise _ _ _ _ _ Ha).
  - rewrite (bind_Return _ _ _ _ _ Hb). by apply IH.
Qed.

(** X5. A pipeline over the transforms [ts1 + ts2] is the pipeline over
    [ts1], then the pipeline over [ts2] from the world the first left, with
    the two outputs appended. *)
Theorem FullTransformPipeline_call_app ts1 ts2 x w :
  FullTransformPipeline_call (Build_FullTransformPipeline (ts1 ++ ts2)) x w =
  (ys ← FullTransformPipeline_call (Build_FullTransformPipeline ts1) x;
   zs ← FullTransformPipeline_call (Build_FullTransformPipeline ts2) x;
   mret (ys ++ zs)) w.
Proof.
  unfold FullTransformPipeline_call. simpl.
  rewrite FullTransformPipeline_loop_app. unfold mbind, M_bind.
  destruct (FullTransformPipeline_loop ts1 x [] w) as [[ys|e] w1]; [|done].
  apply FullTransformPipeline_loop_acc.
Qed.

(** X6. If the transforms before [a] return and [a] raises, the pipeline
    raises that exception from the world [a] left: the transforms after [a]
    are not run and the crops made so far are not returned. *)
Theorem FullTransformPipeline_call_raise ts1 a ts2 x w out w1 e w2 :
  concat_outputs x ts1 w out w1 →
  call a x w1 = (Raise e, w2) →
  call (Build_FullTransformPipeline (ts1 ++ a :: ts2)) x w = (Raise e, w2).
Proof.
  intros Hc Ha.
  unfold call at 1, FullTransformPipeline_Callable, FullTransformPipeline_call.
  simpl. by apply (FullTransformPipeline_loop_raise ts1 a ts2 x [] w out w1).
Qed.

End PipelineMore.

Section SinglePipeline.

Context {World Image Tensor : Type}.

(** X7. With one transform and one count, the pipeline of
    [prepare_n_crop_transform([t], [n])] behaves on every image and world as
    [NCropAugmentation(t, n)] itself. *)
Theorem prepare_n_crop_transform_single (t : Image → M World Tensor) (n : Z) :
  ∃ p, prepare_n_crop_transform [t] [n] = Return p ∧
       ∀ x w, call p x w = call (Build_NCropAugmentation t n) x w.
Proof.
  eexists. split; [reflexivity|]. intros x w.
  unfold call at 1, FullTransformPipeline_Callable, FullTransformPipeline_call.
  simpl. unfold mbind, M_bind, mret, M_ret.
  by destruct (call _ x w) as [[ys|e] w1].
Qed.

End SinglePipeline.

(** ** Datasets: indices out of range, negative indices, nesting *)

Lemma list_getitem_invalid {A} (l : list A) (index : Z) :
  ¬ valid_index l index →
  list_getitem l index = Raise (IndexError "list index out of range").
Proof.
  unfold valid_index, list_getitem. intros Hv.
  case_bool_decide as Hneg; case_bool_decide as Hi; try done.
  - rewrite lookup_ge_None_2 by lia. done.
  - rewrite lookup_ge_None_2 by lia. done.
Qed.

Lemma list_getitem_negative {A} (l : list A) (index : Z) :
  0 ≤ index < Z.of_nat (length l) →
  list_getitem l (index - Z.of_nat (length l)) = list_getitem l index.
Proof.
  unfold list_getitem. intros Hi.
  rewrite (bool_decide_eq_true_2 (index - Z.of_nat (length l) < 0)) by lia.
  rewrite (bool_decide_eq_false_2 (index < 0)) by lia.
  by replace (Z.of_nat (length l) + (index - Z.of_nat (length l))) with index by lia.
Qed.

Section CustomDatasetMore.

Import CustomDatasetWithoutLabels.

Context {World Path Img : Type}.
Context (Path_new : string → Path) (Path_truediv : Path → string → Path).
Context (os_listdir : string → M World (list string)).
Context (Image_open : Path → M World Img).
Context (Image_convert : Img → string → M World Img).

Local Abbreviation getitem := (getitem Path_truediv Image_open Image_convert).
Local Abbreviation init := (init Path_new os_listdir).

(** X8. An index outside [-len, len) makes [__getitem__] raise [IndexError]
    before anything else happens: no image is opened, no transform runs, the
    world is unchanged. *)
Theorem CustomDatasetWithoutLabels_getitem_out_of_range
  (self : t World Path Img) (index : Z) (w : World) :
  ¬ valid_index (images self) index →
  getitem self index w = (Raise (IndexError "list index out of range"), w).
Proof.
  intros Hv. unfold CustomDatasetWithoutLabels.getitem.
  apply bind_Raise. unfold lift. by rewrite list_getitem_invalid.
Qed.

(** X9. Negative indices count from the end: for [0 <= index < len],
    [__getitem__(index - len)] does exactly what [__getitem__(index)] does. *)
Theorem CustomDatasetWithoutLabels_getitem_negative
  (self : t World Path Img) (index : Z) (w : World) :
  0 ≤ index < len self →
  getitem self (index - len self) w = getitem self index w.
Proof.
  unfold len. intros Hi. unfold CustomDatasetWithoutLabels.getitem.
  by rewrite list_getitem_negative.
Qed.

(** X10. Over a directory that [os.listdir] lists as empty, the instance has
    length 0 and [__getitem__] raises [IndexError] at every index. *)
Theorem CustomDatasetWithoutLabels_empty_directory
  (root : string) (transform : option (Img → M World Img)) (w0 w1 : World)
  (self : t World Path Img) :
  init root transform w0 = (Return self, w1) →
  os_listdir root w0 = (Return [], w1) →
  len self = 0 ∧
  ∀ index w,
    getitem self index w = (Raise (IndexError "list index out of range"), w).
Proof.
  unfold CustomDatasetWithoutLabels.init. intros Hinit Hls.
  rewrite (bind_Return _ _ _ _ _ Hls) in Hinit.
  apply ret_Return_inv in Hinit as [<- _]. split; [done|].
  intros index w. unfold CustomDatasetWithoutLabels.getitem.
  apply bind_Raise. unfold lift. rewrite list_getitem_invalid; [done|].
  unfold valid_index. simpl. lia.
Qed.

End CustomDatasetMore.

Section DatasetMore.

Context {World Obj Self : Type}.

(** X11. Wrapping twice prepends the index twice: the item of
    [dataset_with_index(dataset_with_index(D))] is
    [(index, index, *D.__getitem__(index))], and what [D] raises is raised. *)
Theorem dataset_with_index_twice (D : Dataset_class World Obj Self)
  (self : Self) (index : Obj) (w : World) :
  getitem (dataset_with_index (dataset_with_index D)) self index w =
  (data ← getitem D self index; mret (index :: index :: data)) w.
Proof.
  simpl. unfold mbind, M_bind, mret, M_ret.
  by destruct (getitem D self index w) as [[data|e] w1].
Qed.

End DatasetMore.

(** ** Pipelines: which calls reach the constructors, and what they are *)

Lemma bind_imagenet_pipelines_Return (kwargs : gmap string pyval) a :
  bind_imagenet_pipelines kwargs = Return a →
  (∀ k, is_Some (kwargs !! k) → k ∈ imagenet_params) ∧
  kwargs !! "brightness" = Some (brightness a) ∧
  kwargs !! "contrast" = Some (contrast a) ∧
  kwargs !! "saturation" = Some (saturation a) ∧
  kwargs !! "hue" = Some (hue a) ∧
  a = Build_imagenet_args (brightness a) (contrast a) (saturation a) (hue a)
        (default (PyFloat 0.8) (kwargs !! "color_jitter_prob"))
        (default (PyFloat 0.2) (kwargs !! "gray_scale_prob"))
        (default (PyFloat 0.5) (kwargs !! "horizontal_flip_prob"))
        (default (PyFloat 0.5) (kwargs !! "gaussian_prob"))
        (default (PyFloat 0.0) (kwargs !! "solarization_prob"))
        (default (PyFloat 0.08) (kwargs !! "min_scale"))
        (default (PyFloat 1.0) (kwargs !! "max_scale"))
        (default (PyInt 224) (kwargs !! "crop_size"))
        (default (PyInt 0) (kwargs !! "device")).
Proof.
  unfold bind_imagenet_pipelines. case_bool_decide as Hsub; [|done].
  destruct (kwargs !! "brightness") as [b|] eqn:Hb; [|done].
  destruct (kwargs !! "contrast") as [c|] eqn:Hc; [|done].
  destruct (kwargs !! "saturation") as [s|] eqn:Hs; [|done].
  destruct (kwargs !! "hue") as [h|] eqn:Hh; [|done].
  intros [= <-]. simpl. split; [|done].
  intros k Hk%elem_of_dom. apply Hsub in Hk. by apply elem_of_list_to_set in Hk.
Qed.

Lemma bind_imagenet_pipelines_complete (kwargs : gmap string pyval) :
  (∀ k, is_Some (kwargs !! k) → k ∈ imagenet_params) →
  is_Some (kwargs !! "brightness") → is_Some (kwargs !! "contrast") →
  is_Some (kwargs !! "saturation") → is_Some (kwargs !! "hue") →
  ∃ a, bind_imagenet_pipelines kwargs = Return a.
Proof.
  intros Hsub [b Hb] [c Hc] [s Hs] [h Hh]. unfold bind_imagenet_pipelines.
  rewrite bool_decide_eq_true_2.
  - rewrite Hb, Hc, Hs, Hh. by eexists.
  - intros k Hk%elem_of_dom. apply elem_of_list_to_set. by apply Hsub.
Qed.

(** [imagenet_pipelines] is its constructor calls, one after the other, then
    the dictionary. *)
Lemma imagenet_pipelines_calls {W : Type} (C : step → M W unit) a w :
  imagenet_pipelines C a w =
  (_ ← list_comprehension (new C) (imagenet_calls a);
   mret {[ "image" := image_pipeline a; "label" := label_pipeline a ]}) w.
Proof.
  unfold imagenet_pipelines, imagenet_calls, new. simpl.
  unfold mbind, M_bind, mret, M_ret.
  repeat (destruct (C _ _) as [[[]|?] ?]; [|reflexivity]).
  reflexivity.
Qed.

Lemma prepare_transform_bound {W : Type} (C : step → M W unit)
  (dataset : string) (kwargs : gmap string pyval) a w :
  dataset = "imagenet" ∨ dataset = "imagenet100" →
  bind_imagenet_pipelines kwargs = Return a →
  prepare_transform C dataset kwargs w = imagenet_pipelines C a w.
Proof.
  intros Hd Ha. unfold prepare_transform.
  rewrite bool_decide_eq_true_2 by (rewrite !elem_of_cons; tauto).
  by apply imagenet_pipelines_kwargs_bound.
Qed.

Section PipelineCalls.

Context {World : Type} (construct : step → M World unit).

(** A run of constructor calls under the log: same outcome and world as
    without it; the log grows by the calls made, all of them when the run
    returns, up to the one that raised when it raises. *)
Lemma list_comprehension_new_traced (l : list step) w log0 :
  ∃ log,
    list_comprehension (new (traced construct)) l (w, log0)
    = ((list_comprehension (new construct) l w).1,
       ((list_comprehension (new construct) l w).2, log)) ∧
    match (list_comprehension (new construct) l w).1 with
    | Return objs => log = log0 ++ l
    | Raise e =>
        ∃ calls s rest w1,
          l = calls ++ s :: rest ∧ log = log0 ++ calls ++ [s] ∧
          construct s w1 = (Raise e, (list_comprehension (new construct) l w).2)
    end.
Proof.
  revert w log0. induction l as [|s l IH]; intros w log0.
  - exists log0. split; [done|]. simpl. by rewrite app_nil_r.
  - cbn [list_comprehension].
    destruct (construct s w) as [[[]|e] w1] eqn:Hs.
    + assert (new construct s w = (Return s, w1)) as Hn.
      { unfold new. by rewrite (bind_Return _ _ _ _ _ Hs). }
      assert (new (traced construct) s (w, log0) = (Return s, (w1, log0 ++ [s]))) as Hnt.
      { assert (traced construct s (w, log0) = (Return (), (w1, log0 ++ [s]))) as Ht
          by (unfold traced; simpl; by rewrite Hs).
        unfold new. by rewrite (bind_Return _ _ _ _ _ Ht). }
      rewrite (bind_Return _ _ _ _ _ Hn), (bind_Return _ _ _ _ _ Hnt).
      destruct (IH w1 (log0 ++ [s])) as (log & Hrun & Hlog). exists log.
      destruct (list_comprehension (new construct) l w1) as [[objs|e] w2] eqn:Hl;
        simpl in Hrun, Hlog.
      * rewrite (bind_Return _ _ _ _ _ Hrun), (bind_Return _ _ _ _ _ Hl). simpl.
        split; [done|]. by rewrite Hlog, <- app_assoc.
      * rewrite (bind_Raise _ _ _ _ _ Hrun), (bind_Raise _ _ _ _ _ Hl). simpl.
        split; [done|]. destruct Hlog as (calls & s' & rest & w3 & -> & -> & Hraise).
        exists (s :: calls), s', rest, w3. split; [done|]. split; [|done].
        by rewrite <- !app_assoc.
    + assert (new construct s w = (Raise e, w1)) as Hn.
      { unfold new. by rewrite (bind_Raise _ _ _ _ _ Hs). }
      assert (new (traced construct) s (w, log0) = (Raise e, (w1, log0 ++ [s]))) as Hnt.
      { assert (traced construct s (w, log0) = (Raise e, (w1, log0 ++ [s]))) as Ht
          by (unfold traced; simpl; by rewrite Hs).
        unfold new. by rewrite (bind_Raise _ _ _ _ _ Ht). }
      rewrite (bind_Raise _ _ _ _ _ Hn), (bind_Raise _ _ _ _ _ Hnt). simpl.
      exists (log0 ++ [s]). split; [done|]. by exists [], s, l, w.
Qed.

Lemma imagenet_pipelines_traced a w :
  ∃ log,
    imagenet_pipelines (traced construct) a (w, [])
    = ((imagenet_pipelines construct a w).1, ((imagenet_pipelines construct a w).2, log)) ∧
    match (imagenet_pipelines construct a w).1 with
    | Return r => log = imagenet_calls a
    | Raise e =>
        ∃ calls s rest w1,
          imagenet_calls a = calls ++ s :: rest ∧ log = calls ++ [s] ∧
          construct s w1 = (Raise e, (imagenet_pipelines construct a w).2)
    end.
Proof.
  destruct (list_comprehension_new_traced (imagenet_calls a) w []) as (log & Hrun & Hlog).
  exists log. rewrite !imagenet_pipelines_calls.
  unfold mbind, M_bind, mret, M_ret. rewrite Hrun.
  by destruct (list_comprehension (new construct) (imagenet_calls a) w) as [[objs|e] w2].
Qed.

Lemma imagenet_pipelines_traced_prefix a w :
  (imagenet_pipelines (traced construct) a (w, [])).2.2 `prefix_of` imagenet_calls a.
Proof.
  destruct (imagenet_pipelines_traced a w) as (log & -> & Hlog). simpl.
  destruct (imagenet_pipelines construct a w).1 as [r|e].
  - by rewrite Hlog.
  - destruct Hlog as (calls & s & rest & w1 & -> & -> & _).
    exists rest. by rewrite <- app_assoc.
Qed.

(** X17. Whatever the library, [imagenet_pipelines] calls the constructors
    in one fixed order (the 13 of the image pipeline, then the 4 of the label
    pipeline): when it returns it has made all 17 calls, and when it raises
    it has made the calls up to the one that raised, raises that
    constructor's exception, and has called nothing after it. *)
Theorem imagenet_pipelines_call_order (a : imagenet_args) (w : World) :
  ∃ log,
    imagenet_pipelines (traced construct) a (w, [])
    = ((imagenet_pipelines construct a w).1, ((imagenet_pipelines construct a w).2, log)) ∧
    log `prefix_of` imagenet_calls a ∧
    match (imagenet_pipelines construct a w).1 with
    | Return r => log = imagenet_calls a ∧ length log = 17%nat
    | Raise e =>
        ∃ calls s rest w1,
          imagenet_calls a = calls ++ s :: rest ∧ log = calls ++ [s] ∧
          construct s w1 = (Raise e, (imagenet_pipelines construct a w).2)
    end.
Proof.
  pose proof (imagenet_pipelines_traced_prefix a w) as Hpre.
  destruct (imagenet_pipelines_traced a w) as (log & Hrun & Hlog).
  exists log. split; [done|]. rewrite Hrun in Hpre. split; [done|].
  destruct (imagenet_pipelines construct a w).1 as [r|e]; [|done].
  by rewrite Hlog.
Qed.

(** X14. Whatever the library, every [ToDevice] that [imagenet_pipelines]
    builds, for the image pipeline or for the label pipeline, is built with
    the [device] parameter and non-blocking. *)
Theorem imagenet_pipelines_ToDevice (a : imagenet_args) (w : World)
  (d : pyval) (nb : bool) :
  ToDevice d nb ∈ (imagenet_pipelines (traced construct) a (w, [])).2.2 →
  d = device a ∧ nb = true.
Proof.
  intros Hin.
  destruct (imagenet_pipelines_traced_prefix a w) as [rest Hrest].
  assert (ToDevice d nb ∈ imagenet_calls a) as Hcalls.
  { rewrite Hrest. apply elem_of_app. by left. }
  clear Hin Hrest. unfold imagenet_calls in Hcalls.
  repeat (apply elem_of_cons in Hcalls as [Hcalls|Hcalls];
          [by (discriminate || injection Hcalls)|]).
  by apply elem_of_nil in Hcalls.
Qed.

(** X12. [prepare_transform] reaches the step constructors exactly when the
    dataset is [imagenet] or [imagenet100], every keyword is a parameter of
    [imagenet_pipelines], and [brightness], [contrast], [saturation] and [hue]
    are all given: then it does what [imagenet_pipelines] does on the bound
    parameters; otherwise it raises [ValueError] or [TypeError] and leaves
    the world as it was. So it can return only under these conditions, and
    under them it returns whenever every constructor does. *)
Theorem prepare_transform_reaches_constructors (dataset : string)
  (kwargs : gmap string pyval) (w : World) :
  let bound :=
    (dataset = "imagenet" ∨ dataset = "imagenet100") ∧
    (∀ k, is_Some (kwargs !! k) → k ∈ imagenet_params) ∧
    is_Some (kwargs !! "brightness") ∧ is_Some (kwargs !! "contrast") ∧
    is_Some (kwargs !! "saturation") ∧ is_Some (kwargs !! "hue") in
  (bound → ∃ a, bind_imagenet_pipelines kwargs = Return a ∧
                prepare_transform construct dataset kwargs w
                = imagenet_pipelines construct a w) ∧
  (¬ bound → ∃ e, prepare_transform construct dataset kwargs w = (Raise e, w) ∧
                  ((∃ msg, e = ValueError msg) ∨ (∃ msg, e = TypeError msg))) ∧
  ((∃ r w', prepare_transform construct dataset kwargs w = (Return r, w')) → bound) ∧
  (bound → (∀ s, always_returns (construct s)) →
   ∃ r w', prepare_transform construct dataset kwargs w = (Return r, w')).
Proof.
  intros bound.
  assert (bound → ∃ a, bind_imagenet_pipelines kwargs = Return a ∧
                       prepare_transform construct dataset kwargs w
                       = imagenet_pipelines construct a w) as Hbound.
  { intros (Hd & Hsub & Hb & Hc & Hs & Hh).
    destruct (bind_imagenet_pipelines_complete kwargs Hsub Hb Hc Hs Hh) as [a Ha].
    exists a. split; [done|]. by apply prepare_transform_bound. }
  assert (¬ bound → ∃ e, prepare_transform construct dataset kwargs w = (Raise e, w) ∧
                         ((∃ msg, e = ValueError msg) ∨ (∃ msg, e = TypeError msg)))
    as Hunbound.
  { intros Hnot. unfold prepare_transform. case_bool_decide as Hd.
    - rewrite !elem_of_cons, elem_of_nil in Hd.
      destruct (bind_imagenet_pipelines kwargs) as [a|e] eqn:Ha.
      + destruct Hnot.
        apply bind_imagenet_pipelines_Return in Ha as (Hsub & Hb & Hc & Hs & Hh & _).
        unfold bound. rewrite Hb, Hc, Hs, Hh. repeat split; eauto; tauto.
      + destruct (imagenet_pipelines_kwargs_unbound construct kwargs e w Ha) as [Hrun Hmsg].
        exists e. split; [done|]. by right.
    - eexists. split; [reflexivity|]. left. by eexists. }
  split; [done|]. split; [done|]. split.
  - intros (r & w' & Hr). unfold prepare_transform in Hr.
    case_bool_decide as Hd; [|discriminate].
    rewrite !elem_of_cons, elem_of_nil in Hd.
    destruct (bind_imagenet_pipelines kwargs) as [a|e] eqn:Ha.
    + apply bind_imagenet_pipelines_Return in Ha as (Hsub & Hb & Hc & Hs & Hh & _).
      unfold bound. rewrite Hb, Hc, Hs, Hh. repeat split; eauto; tauto.
    + destruct (imagenet_pipelines_kwargs_unbound construct kwargs e w Ha) as [Hrun _].
      rewrite Hrun in Hr. discriminate.
  - intros Hb Hret. destruct (Hbound Hb) as (a & _ & ->).
    destruct (imagenet_pipelines_returns construct a w Hret) as [w' Hrun].
    by eexists _, w'.
Qed.

(** X13. When the dataset is supported and the keywords bind,
    [prepare_transform] does what [imagenet_pipelines] does on these
    parameters: each keyword given, and for each keyword left out its
    signature default (crop size 224, scale 0.08 to 1.0, probabilities 0.8
    for colour jitter, 0.2 for grayscale, 0.5 for Gaussian blur, 0.0 for
    solarization and 0.5 for the flip, device 0). The constructor calls it
    makes are the first of [imagenet_calls] on these parameters, and what it
    returns, when it returns, are the two pipelines on these parameters. *)
Theorem prepare_transform_keywords (dataset : string) (kwargs : gmap string pyval)
  (b c s h : pyval) (w : World) :
  dataset = "imagenet" ∨ dataset = "imagenet100" →
  (∀ k, is_Some (kwargs !! k) → k ∈ imagenet_params) →
  kwargs !! "brightness" = Some b → kwargs !! "contrast" = Some c →
  kwargs !! "saturation" = Some s → kwargs !! "hue" = Some h →
  let a := Build_imagenet_args b c s h
             (default (PyFloat 0.8) (kwargs !! "color_jitter_prob"))
             (default (PyFloat 0.2) (kwargs !! "gray_scale_prob"))
             (default (PyFloat 0.5) (kwargs !! "horizontal_flip_prob"))
             (default (PyFloat 0.5) (kwargs !! "gaussian_prob"))
             (default (PyFloat 0.0) (kwargs !! "solarization_prob"))
             (default (PyFloat 0.08) (kwargs !! "min_scale"))
             (default (PyFloat 1.0) (kwargs !! "max_scale"))
             (default (PyInt 224) (kwargs !! "crop_size"))
             (default (PyInt 0) (kwargs !! "device")) in
  prepare_transform construct dataset kwargs w = imagenet_pipelines construct a w ∧
  (prepare_transform (traced construct) dataset kwargs (w, [])).2.2
    `prefix_of` imagenet_calls a ∧
  (∀ r w', prepare_transform construct dataset kwargs w = (Return r, w') →
     r !! "image" = Some (image_pipeline a) ∧ r !! "label" = Some (label_pipeline a)).
Proof.
  intros Hd Hsub Hb Hc Hs Hh a.
  assert (bind_imagenet_pipelines kwargs = Return a) as Ha.
  { destruct (bind_imagenet_pipelines_complete kwargs Hsub) as [a' Ha']; [by eexists..|].
    rewrite Ha'. f_equal.
    apply bind_imagenet_pipelines_Return in Ha' as (_ & Hb' & Hc' & Hs' & Hh' & ->).
    unfold a. congruence. }
  split; [by apply prepare_transform_bound|]. split.
  - rewrite (prepare_transform_bound _ _ _ a) by done.
    apply imagenet_pipelines_traced_prefix.
  - intros r w'. rewrite (prepare_transform_bound _ _ _ a) by done.
    intros ->%imagenet_pipelines_Return_inv. split.
    + apply lookup_insert_eq.
    + rewrite lookup_insert_ne by done. apply lookup_singleton_eq.
Qed.

End PipelineCalls.
(** ** String representations *)

Lemma string_app_assoc (s1 s2 s3 : string) :
  (s1 +:+ s2) +:+ s3 = s1 +:+ s2 +:+ s3.
Proof.
  induction s1 as [|a s1 IH]; [done|].
  change (String a ((s1 +:+ s2) +:+ s3) = String a (s1 +:+ s2 +:+ s3)).
  by rewrite IH.
Qed.

Lemma string_length_app (s1 s2 : string) :
  String.length (s1 +:+ s2) = (String.length s1 + String.length s2)%nat.
Proof.
  induction s1 as [|a s1 IH]; [done|].
  change (S (String.length (s1 +:+ s2)) = S (String.length s1 + String.length s2)).
  by rewrite IH.
Qed.

Lemma string_app_cancel_r (s1 s2 r : string) :
  s1 +:+ r = s2 +:+ r → s1 = s2.
Proof.
  revert s2. induction s1 as [|a s1 IH]; intros [|b s2] H.
  - done.
  - change (r = String b (s2 +:+ r)) in H.
    apply (f_equal String.length) in H.
    change (String.length r = S (String.length (s2 +:+ r))) in H.
    rewrite string_length_app in H. lia.
  - change (String a (s1 +:+ r) = r) in H.
    apply (f_equal String.length) in H.
    change (S (String.length (s1 +:+ r)) = String.length r) in H.
    rewrite string_length_app in H. lia.
  - change (String a (s1 +:+ r) = String b (s2 +:+ r)) in H.
    injection H as -> H. f_equal. by apply IH.
Qed.

Lemma str_join_app (sep : string) (l1 l2 : list string) :
  l1 ≠ [] → l2 ≠ [] →
  str_join sep (l1 ++ l2) = str_join sep l1 +:+ sep +:+ str_join sep l2.
Proof.
  intros H1 H2. induction l1 as [|s l1 IH]; [done|].
  destruct l1 as [|s' l1].
  - destruct l2 as [|s2 l2]; [done|]. done.
  - change (str_join sep ((s :: s' :: l1) ++ l2))
      with (s +:+ sep +:+ str_join sep ((s' :: l1) ++ l2)).
    rewrite IH by done.
    change (str_join sep (s :: s' :: l1))
      with (s +:+ sep +:+ str_join sep (s' :: l1)).
    by rewrite !string_app_assoc.
Qed.

Section ReprFacts.

Context {World Image Tensor : Type}.
Context (str_transform : (Image → M World Tensor) → string).

(** X15. The representation of a pipeline over [ts1 + ts2], both non-empty,
    is the representation of the pipeline over [ts1], a line feed, and the
    representation of the pipeline over [ts2]: one line per transform, in
    order, with no line feed at either end of its own. *)
Theorem FullTransformPipeline_repr_app {C} (str : C → string) (ts1 ts2 : list C) :
  ts1 ≠ [] → ts2 ≠ [] →
  FullTransformPipeline_repr str (Build_FullTransformPipeline (ts1 ++ ts2)) =
  FullTransformPipeline_repr str (Build_FullTransformPipeline ts1)
    +:+ newline
    +:+ FullTransformPipeline_repr str (Build_FullTransformPipeline ts2).
Proof.
  intros H1 H2. unfold FullTransformPipeline_repr. simpl. rewrite fmap_app.
  apply str_join_app; by destruct ts1, ts2.
Qed.

(** X16. Two [NCropAugmentation] objects over the same transform print
    differently whenever their crop counts differ. *)
Theorem NCropAugmentation_repr_count (t : Image → M World Tensor) (n m : Z) :
  n ≠ m →
  NCropAugmentation_repr str_transform (Build_NCropAugmentation t n) ≠
  NCropAugmentation_repr str_transform (Build_NCropAugmentation t m).
Proof.
  intros Hnm. unfold NCropAugmentation_repr. simpl.
  intros Heq%string_app_cancel_r. by apply (inj pretty) in Heq.
Qed.

End ReprFacts.

(** ** The further properties at concrete inputs *)

(** X1 at a count of 0 and a transform that would raise. *)
Lemma NCropAugmentation_call_nonpositive_witness :
  0 ≤ 0 ∧ call (Build_NCropAugmentation Toy.flaky 0) 10 5%nat = (Return [], 5%nat).
Proof.
  split; [lia|]. apply (NCropAugmentation_call_nonpositive Toy.flaky 0 10 5%nat). lia.
Defined.

(** X2 at [flaky]: two crops are made, the third application raises. *)
Lemma NCropAugmentation_call_raise_witness :
  crops Toy.flaky 10 0%nat [10; 11] 2%nat ∧
  Z.of_nat (length [10; 11]) < 3 ∧
  Toy.flaky 10 2%nat = (Raise (OtherError "RuntimeError"), 2%nat) ∧
  call (Build_NCropAugmentation Toy.flaky 3) 10 0%nat
  = (Raise (OtherError "RuntimeError"), 2%nat).
Proof.
  assert (crops Toy.flaky 10 0%nat [10; 11] 2%nat) as Hc.
  { apply (crops_cons _ _ 0%nat 10 1%nat); [reflexivity|].
    apply (crops_cons _ _ 1%nat 11 2%nat); [reflexivity|]. constructor. }
  split; [exact Hc|]. split; [simpl; lia|]. split; [reflexivity|].
  apply (NCropAugmentation_call_raise Toy.flaky 3 10 0%nat [10; 11] 2%nat _ 2%nat Hc);
    [simpl; lia | reflexivity].
Defined.

(** X3 at [jitter]: three crops are two crops and then one. *)
Lemma NCropAugmentation_call_add_witness :
  call (Build_NCropAugmentation Toy.jitter (2 + 1)) 10 0%nat =
  (ys ← call (Build_NCropAugmentation Toy.jitter 2) 10;
   zs ← call (Build_NCropAugmentation Toy.jitter 1) 10; mret (ys ++ zs)) 0%nat.
Proof. apply (NCropAugmentation_call_add Toy.jitter 2 1 10 0%nat); lia. Defined.

(** X4 at the transform that doubles its input. *)
Lemma NCropAugmentation_call_pure_witness :
  call (Build_NCropAugmentation (λ (x : Z) (w : nat), (Return (2 * x), w)) 3) 5 0%nat
  = (Return (replicate (Z.to_nat 3) 10), 0%nat).
Proof.
  apply (NCropAugmentation_call_pure (λ (x : Z) (w : nat), (Return (2 * x), w)) 3 5 10 0%nat).
  intros w0. reflexivity.
Defined.

(** X6: after two crops of [jitter] the counter is 2, where [flaky] raises. *)
Lemma FullTransformPipeline_call_raise_witness :
  call (Build_FullTransformPipeline
          ([Build_NCropAugmentation Toy.jitter 2]
             ++ Build_NCropAugmentation Toy.flaky 2
             :: [Build_NCropAugmentation Toy.jitter 1])) 10 0%nat
  = (Raise (OtherError "RuntimeError"), 2%nat).
Proof.
  apply (FullTransformPipeline_call_raise
           [Build_NCropAugmentation Toy.jitter 2] (Build_NCropAugmentation Toy.flaky 2)
           [Build_NCropAugmentation Toy.jitter 1] 10 0%nat [10; 11] 2%nat).
  - apply (concat_outputs_cons 10 _ [] 0%nat [10; 11] 2%nat [] 2%nat);
      [reflexivity | constructor].
  - reflexivity.
Defined.

(** X8 at three images and the index 3. *)
Lemma CustomDatasetWithoutLabels_getitem_out_of_range_witness :
  let self := CustomDatasetWithoutLabels.Build "data" None ["a.png"; "b.png"; "c.png"] in
  ¬ valid_index (CustomDatasetWithoutLabels.images self) 3 ∧
  CustomDatasetWithoutLabels.getitem Toy.truediv Toy.open Toy.convert self 3 Toy.fs0
  = (Raise (IndexError "list index out of range"), Toy.fs0).
Proof.
  intros self.
  assert (¬ valid_index (CustomDatasetWithoutLabels.images self) 3) as Hv
    by (unfold valid_index; simpl; lia).
  split; [exact Hv|].
  apply (CustomDatasetWithoutLabels_getitem_out_of_range
           Toy.truediv Toy.open Toy.convert self 3 Toy.fs0 Hv).
Defined.

(** X9 at three images: the index -2 is the index 1. *)
Lemma CustomDatasetWithoutLabels_getitem_negative_witness :
  let self := CustomDatasetWithoutLabels.Build "data" None ["a.png"; "b.png"; "c.png"] in
  0 ≤ 1 < CustomDatasetWithoutLabels.len self ∧
  CustomDatasetWithoutLabels.getitem Toy.truediv Toy.open Toy.convert self
    (1 - CustomDatasetWithoutLabels.len self) Toy.fs0
  = CustomDatasetWithoutLabels.getitem Toy.truediv Toy.open Toy.convert self 1 Toy.fs0.
Proof.
  intros self.
  assert (0 ≤ 1 < CustomDatasetWithoutLabels.len self) as Hi
    by (unfold CustomDatasetWithoutLabels.len; simpl; lia).
  split; [exact Hi|].
  apply (CustomDatasetWithoutLabels_getitem_negative
           Toy.truediv Toy.open Toy.convert self 1 Toy.fs0 Hi).
Defined.

(** X10 at a file system whose directory [empty] lists nothing. *)
Lemma CustomDatasetWithoutLabels_empty_directory_witness :
  let fs : gmap string (list string) := {[ "empty" := [] ]} in
  let self := CustomDatasetWithoutLabels.Build "empty" None [] in
  CustomDatasetWithoutLabels.len self = 0 ∧
  ∀ index w,
    CustomDatasetWithoutLabels.getitem Toy.truediv Toy.open Toy.convert self index w
    = (Raise (IndexError "list index out of range"), w).
Proof.
  intros fs self.
  apply (CustomDatasetWithoutLabels_empty_directory
           id Toy.truediv Toy.listdir Toy.open Toy.convert "empty" None fs fs self);
    vm_compute; reflexivity.
Defined.

(** X13 at a library that raises at [NormalizeImage]: the calls made are
    the first 13. *)
Lemma prepare_transform_keywords_witness :
  prepare_transform Toy.strict "imagenet" Toy.kwargs0 tt
    = imagenet_pipelines Toy.strict Toy.args0 tt ∧
  (prepare_transform (traced Toy.strict) "imagenet" Toy.kwargs0 (tt, [])).2.2
    `prefix_of` imagenet_calls Toy.args0 ∧
  (∀ r w', prepare_transform Toy.strict "imagenet" Toy.kwargs0 tt = (Return r, w') →
     r !! "image" = Some (image_pipeline Toy.args0) ∧
     r !! "label" = Some (label_pipeline Toy.args0)).
Proof.
  assert (bind_imagenet_pipelines Toy.kwargs0 = Return Toy.args0) as Hbind
    by (vm_compute; reflexivity).
  destruct (bind_imagenet_pipelines_Return _ _ Hbind) as (Hsub & Hb & Hc & Hs & Hh & _).
  exact (prepare_transform_keywords Toy.strict "imagenet" Toy.kwargs0
           _ _ _ _ tt (or_introl eq_refl) Hsub Hb Hc Hs Hh).
Defined.

(** X15 at the lines [a] and [b], [c]. *)
Lemma FullTransformPipeline_repr_app_witness :
  FullTransformPipeline_repr id (Build_FullTransformPipeline (["a"] ++ ["b"; "c"])) =
  FullTransformPipeline_repr id (Build_FullTransformPipeline ["a"])
    +:+ newline
    +:+ FullTransformPipeline_repr id (Build_FullTransformPipeline ["b"; "c"]).
Proof. by apply (FullTransformPipeline_repr_app id ["a"] ["b"; "c"]). Defined.

(** X16 at two and three crops of [jitter]. *)
Lemma NCropAugmentation_repr_count_witness :
  NCropAugmentation_repr (λ _, "jitter") (Build_NCropAugmentation Toy.jitter 2) ≠
  NCropAugmentation_repr (λ _, "jitter") (Build_NCropAugmentation Toy.jitter 3).
Proof. by apply (NCropAugmentation_repr_count (λ _, "jitter") Toy.jitter 2 3). Defined.

Example NCropAugmentation_repr_run :
  NCropAugmentation_repr (λ _, "jitter") (Build_NCropAugmentation Toy.jitter 2)
  = "2 x [jitter]".
Proof. vm_compute. reflexivity. Qed.

Example FullTransformPipeline_repr_run :
  FullTransformPipeline_repr id (Build_FullTransformPipeline ["a"; "b"; "c"])
  = "a" +:+ newline +:+ "b" +:+ newline +:+ "c".
Proof. vm_compute. reflexivity. Qed.

(** X14 at a library that raises at [NormalizeImage]: the [ToDevice] of the
    image pipeline has been built by then. *)
Lemma imagenet_pipelines_ToDevice_witness :
  ToDevice (PyInt 0) true ∈ (imagenet_pipelines (traced Toy.strict) Toy.args0 (tt, [])).2.2 ∧
  (PyInt 0 = device Toy.args0 ∧ true = true).
Proof.
  assert (ToDevice (PyInt 0) true
          ∈ (imagenet_pipelines (traced Toy.strict) Toy.args0 (tt, [])).2.2) as Hin.
  { apply list_elem_of_lookup. exists 10%nat. vm_compute. reflexivity. }
  split; [exact Hin|].
  exact (imagenet_pipelines_ToDevice Toy.strict Toy.args0 tt (PyInt 0) true Hin).
Defined.

Example imagenet_pipelines_strict_calls_run :
  step_class <$> (imagenet_pipelines (traced Toy.strict) Toy.args0 (tt, [])).2.2
  = [ "RandomResizedCropRGBImageDecoder"; "ColorJitter"; "RandomApply";
      "RandomGrayscale"; "GaussianBlur"; "RandomApply"; "Solarization";
      "RandomApply"; "RandomHorizontalFlip"; "ToTensor"; "ToDevice";
      "ToTorchImage"; "NormalizeImage" ].
Proof. vm_compute. reflexivity. Qed.

Example imagenet_pipelines_negative_brightness_run :
  imagenet_pipelines (traced Toy.strict)
    (Build_imagenet_args (PyFloat (-1)) (PyFloat 0.4) (PyFloat 0.2) (PyFloat 0.1)
       (PyFloat 0.8) (PyFloat 0.2) (PyFloat 0.5) (PyFloat 0.5) (PyFloat 0.0)
       (PyFloat 0.08) (PyFloat 1.0) (PyInt 224) (PyInt 0)) (tt, [])
  = (Raise (ValueError "If brightness is a single number, it must be non negative."),
     (tt, [ RandomResizedCropRGBImageDecoder (PyInt 224, PyInt 224)
              (PyFloat 0.08, PyFloat 1.0);
            ColorJitter (PyFloat (-1)) (PyFloat 0.4) (PyFloat 0.2) (PyFloat 0.1) ])).
Proof. vm_compute. reflexivity. Qed.

